(** * A shallow embedding of the IDSMS scheduling and payment engines

    Sources embedded here:
    - backend/app/validators/schedule_validator.py  (ScheduleValidator)
    - backend/app/validators/payment_validator.py   (PaymentValidator)
    - backend/app/api/payments.py                   (initiate_payment, mpesa_callback)
    - backend/app/api/lessons.py                    (schedule_lesson, update_lesson_status)
    - backend/app/services/mpesa.py                 (get_password, stk_push's phone rewriting)
    - backend/app/models/{lesson,payment,course,base}.py (the ORM tables)

    Python evaluation is modelled by a small result type [pyres]: a value,
    or a raised exception.  The ORM tables are modelled by their declared
    columns, so that class attribute access [Lesson.start_time] resolves
    (or fails) exactly as SQLModel does.  Naive datetimes are integers
    counting microseconds from Monday 2024-01-01 00:00:00; money is [Q]. *)

From Stdlib Require Import ZArith QArith Qabs List String Ascii Bool Lia.
Import ListNotations.
Open Scope string_scope.
Open Scope Z_scope.

(** ** Python runtime fragments *)

Inductive exn : Type :=
| AttributeError (name : string)
| NameError (name : string)
| HTTPException (status_code : Z) (detail : string)
| PyException (message : string).

(** [str(e)] *)
Definition str_exn (e : exn) : string :=
  match e with
  | AttributeError n => "has no attribute '" ++ n ++ "'"
  | NameError n => "name '" ++ n ++ "' is not defined"
  | HTTPException _ d => d
  | PyException m => m
  end.

Inductive pyres (A : Type) : Type :=
| Ret (a : A)
| Raise (e : exn).
Arguments Ret {A} a.
Arguments Raise {A} e.

Definition bind {A B} (m : pyres A) (k : A -> pyres B) : pyres B :=
  match m with
  | Ret a => k a
  | Raise e => Raise e
  end.

Notation "x <- m ;; k" := (bind m (fun x => k))
  (at level 61, m at next level, right associativity).

(** The [Tuple[bool, Optional[str]]] returned by every validator. *)
Definition verdict := (bool * option string)%type.
Definition ok : verdict := (true, None).
Definition fail (msg : string) : verdict := (false, Some msg).

(** ** datetime *)

Module DateTime.

Definition MICROSECOND : Z := 1.
Definition SECOND : Z := 1000000.
Definition MINUTE : Z := 60 * SECOND.
Definition HOUR : Z := 60 * MINUTE.
Definition DAY : Z := 24 * HOUR.

(** [datetime] as microseconds since Monday 2024-01-01 00:00:00. *)
Definition datetime := Z.

(** [dt.weekday()]: Monday is 0, Sunday is 6. *)
Definition weekday (t : datetime) : Z := Z.modulo (Z.div t DAY) 7.
(** [dt.hour] and [dt.minute]. *)
Definition hour (t : datetime) : Z := Z.div (Z.modulo t DAY) HOUR.
Definition minute (t : datetime) : Z := Z.div (Z.modulo t HOUR) MINUTE.

(** [timedelta(minutes=m)], [timedelta(hours=h)], [timedelta(days=d)]. *)
Definition minutes (m : Z) : Z := m * MINUTE.
Definition hours (h : Z) : Z := h * HOUR.
Definition days (d : Z) : Z := d * DAY.

(** [dt.replace(hour=0, minute=0, second=0, microsecond=0)] and
    [dt.replace(hour=23, minute=59, second=59, microsecond=999999)]. *)
Definition start_of_day (t : datetime) : datetime := t - Z.modulo t DAY.
Definition end_of_day (t : datetime) : datetime :=
  start_of_day t + hours 23 + minutes 59 + 59 * SECOND + 999999 * MICROSECOND.

(** A wall-clock time: day number since the epoch, hour, minute. *)
Definition at_ (day h m : Z) : datetime := days day + hours h + minutes m.

End DateTime.
Import DateTime.

(** ** The ORM layer

    A column value as the database hands it back, and the comparison
    operators of SQLAlchemy column expressions.  A comparison involving a
    value of another type (or NULL) is not true, so the row is not selected. *)

Inductive sqlval : Type :=
| VNull
| VInt (z : Z)
| VStr (s : string)
| VTime (t : datetime)
| VId (u : Z)
| VMoney (q : Q).

Definition sql_cmp (f : Z -> Z -> bool) (a b : sqlval) : bool :=
  match a, b with
  | VTime x, VTime y => f x y
  | VInt x, VInt y => f x y
  | _, _ => false
  end.

Definition sql_le := sql_cmp Z.leb.
Definition sql_lt := sql_cmp Z.ltb.
Definition sql_ge := sql_cmp (fun x y => Z.leb y x).
Definition sql_gt := sql_cmp (fun x y => Z.ltb y x).

Definition sql_eq (a b : sqlval) : bool :=
  match a, b with
  | VInt x, VInt y | VTime x, VTime y | VId x, VId y => Z.eqb x y
  | VStr x, VStr y => String.eqb x y
  | VMoney x, VMoney y => Qeq_bool x y
  | _, _ => false
  end.

Definition sql_ne (a b : sqlval) : bool :=
  match a, b with
  | VNull, _ | _, VNull => false
  | _, _ => negb (sql_eq a b)
  end.

(** [column.in_([...])] on string values. *)
Definition sql_in (a : sqlval) (xs : list string) : bool :=
  existsb (fun x => sql_eq a (VStr x)) xs.

(** A SQLModel table class: its declared columns, each read off a row. *)
Class Table (T : Type) := columns : list (string * (T -> sqlval)).

Fixpoint assoc {B} (k : string) (l : list (string * B)) : option B :=
  match l with
  | [] => None
  | (k', v) :: l' => if String.eqb k k' then Some v else assoc k l'
  end.

(** Class attribute access [Model.name] on a table class: a column
    expression when [name] is declared, [AttributeError] otherwise. *)
Definition getattr_column {T} `{Table T} (name : string) : pyres (T -> sqlval) :=
  match assoc name columns with
  | Some f => Ret f
  | None => Raise (AttributeError name)
  end.

(** ** models/lesson.py *)

Module LessonModel.

Inductive LessonStatus := SCHEDULED | COMPLETED | CANCELLED | NO_SHOW.
Inductive LessonType := THEORY | PRACTICAL | EXAM.

Definition status_value (s : LessonStatus) : string :=
  match s with
  | SCHEDULED => "scheduled"
  | COMPLETED => "completed"
  | CANCELLED => "cancelled"
  | NO_SHOW => "no_show"
  end.

Definition type_value (t : LessonType) : string :=
  match t with THEORY => "theory" | PRACTICAL => "practical" | EXAM => "exam" end.

(** [class Lesson(LessonBase, table=True)]: the fields of [LessonBase] and
    the primary key [id].  UUIDs are integers. *)
Record Lesson := mkLesson {
  id : Z;
  scheduled_at : datetime;
  status : LessonStatus;
  type : LessonType;
  notes : option string;
  duration_minutes : Z;
  enrollment_id : Z;
  instructor_id : Z;
  vehicle_id : option Z
}.

Definition opt_val {A} (f : A -> sqlval) (o : option A) : sqlval :=
  match o with Some a => f a | None => VNull end.

#[export] Instance Lesson_table : Table Lesson := [
  ("scheduled_at", fun l => VTime (scheduled_at l));
  ("status", fun l => VStr (status_value (status l)));
  ("type", fun l => VStr (type_value (type l)));
  ("notes", fun l => opt_val VStr (notes l));
  ("duration_minutes", fun l => VInt (duration_minutes l));
  ("enrollment_id", fun l => VId (enrollment_id l));
  ("instructor_id", fun l => VId (instructor_id l));
  ("vehicle_id", fun l => opt_val VId (vehicle_id l));
  ("id", fun l => VId (id l))
].

Definition set_status (l : Lesson) (s : LessonStatus) : Lesson :=
  {| id := id l; scheduled_at := scheduled_at l; status := s; type := type l;
     notes := notes l; duration_minutes := duration_minutes l;
     enrollment_id := enrollment_id l; instructor_id := instructor_id l;
     vehicle_id := vehicle_id l |}.

End LessonModel.
Import LessonModel.

(** ** validators/schedule_validator.py *)

Module ScheduleValidator.

Definition BUSINESS_START_HOUR : Z := 7.
Definition BUSINESS_END_HOUR : Z := 19.
Definition MIN_LESSON_DURATION_MINUTES : Z := 30.
Definition MAX_LESSON_DURATION_MINUTES : Z := 180.
Definition MIN_ADVANCE_BOOKING_HOURS : Z := 2.
Definition MAX_ADVANCE_BOOKING_DAYS : Z := 90.
Definition MIN_BREAK_MINUTES : Z := 15.

Definition validate_business_hours (start_time end_time : datetime) : verdict :=
  if hour start_time <? BUSINESS_START_HOUR then
    fail "Lessons cannot start before 7:00 AM"
  else if (BUSINESS_END_HOUR <=? hour end_time) ||
          ((hour end_time =? BUSINESS_END_HOUR) && (0 <? minute end_time)) then
    fail "Lessons must end by 19:00 PM"
  else if BUSINESS_END_HOUR <=? hour start_time then
    fail "Lesson start time is outside business hours"
  else ok.

(** [duration_minutes = (end - start).total_seconds() / 60] compared with
    the bounds; the comparisons are done on microseconds. *)
Definition validate_lesson_duration (start_time end_time : datetime) : verdict :=
  if end_time <=? start_time then
    fail "Lesson end time must be after start time"
  else if end_time - start_time <? minutes MIN_LESSON_DURATION_MINUTES then
    fail "Lesson must be at least 30 minutes"
  else if minutes MAX_LESSON_DURATION_MINUTES <? end_time - start_time then
    fail "Lesson cannot exceed 180 minutes"
  else ok.

(** [now = datetime.utcnow()] is the parameter [now]. *)
Definition validate_advance_booking (now start_time : datetime) : verdict :=
  if start_time <? now then
    fail "Cannot schedule lessons in the past"
  else if start_time <? now + hours MIN_ADVANCE_BOOKING_HOURS then
    fail "Lessons must be booked at least 2 hours in advance"
  else if now + days MAX_ADVANCE_BOOKING_DAYS <? start_time then
    fail "Cannot book lessons more than 90 days in advance"
  else ok.

Definition validate_weekend_scheduling (start_time : datetime) : verdict :=
  if weekday start_time =? 6 then
    fail "Lessons are not available on Sundays"
  else if weekday start_time =? 5 then
    if (hour start_time <? 8) || (17 <=? hour start_time) then
      fail "Saturday lessons are only available between 8:00 AM and 5:00 PM"
    else ok
  else ok.


(** The [or_] of the three [and_] conditions of the conflict queries, for
    the query window [[a, b]]; [s1 e1 s2 e2 s3 e3] are the six column
    expressions [Lesson.start_time], [Lesson.end_time], ... in the order
    they are written. *)
Definition overlap_where {T} (s1 e1 s2 e2 s3 e3 : T -> sqlval) (a b : datetime)
  (l : T) : bool :=
  (sql_le (s1 l) (VTime a) && sql_gt (e1 l) (VTime a)) ||
  (sql_lt (s2 l) (VTime b) && sql_ge (e2 l) (VTime b)) ||
  (sql_ge (s3 l) (VTime a) && sql_le (e3 l) (VTime b)).

(** [if exclude_lesson_id: statement = statement.where(Lesson.id != ...)] *)
Definition exclude_where (exclude_lesson_id : option Z) (cond : Lesson -> bool)
  : pyres (Lesson -> bool) :=
  match exclude_lesson_id with
  | Some x =>
      c_id <- getattr_column "id" ;;
      Ret (fun l => cond l && sql_ne (c_id l) (VId x))
  | None => Ret cond
  end.

(** [check_instructor_availability]: the lesson table [lessons] is the
    database the session reads.  The arguments of [select(Lesson).where]
    are evaluated left to right, each [Lesson.<name>] an attribute access
    on the table class. *)
Definition check_instructor_availability (lessons : list Lesson)
  (instructor_id : Z) (start_time end_time : datetime)
  (exclude_lesson_id : option Z) : pyres verdict :=
  let buffer_start := start_time - minutes MIN_BREAK_MINUTES in
  let buffer_end := end_time + minutes MIN_BREAK_MINUTES in
  c_instructor <- getattr_column "instructor_id" ;;
  c_status <- getattr_column "status" ;;
  c_start1 <- getattr_column "start_time" ;;
  c_end1 <- getattr_column "end_time" ;;
  c_start2 <- getattr_column "start_time" ;;
  c_end2 <- getattr_column "end_time" ;;
  c_start3 <- getattr_column "start_time" ;;
  c_end3 <- getattr_column "end_time" ;;
  let cond (l : Lesson) :=
    sql_eq (c_instructor l) (VId instructor_id) &&
    sql_in (c_status l) ["scheduled"; "in_progress"] &&
    overlap_where c_start1 c_end1 c_start2 c_end2 c_start3 c_end3
      buffer_start buffer_end l in
  where_ <- exclude_where exclude_lesson_id cond ;;
  match filter where_ lessons with
  | [] => Ret ok
  | _ :: _ => Ret (fail "Instructor is not available at this time (including required break time)")
  end.

Definition check_vehicle_availability (lessons : list Lesson)
  (vehicle_id : Z) (start_time end_time : datetime)
  (exclude_lesson_id : option Z) : pyres verdict :=
  c_vehicle <- getattr_column "vehicle_id" ;;
  c_status <- getattr_column "status" ;;
  c_start1 <- getattr_column "start_time" ;;
  c_end1 <- getattr_column "end_time" ;;
  c_start2 <- getattr_column "start_time" ;;
  c_end2 <- getattr_column "end_time" ;;
  c_start3 <- getattr_column "start_time" ;;
  c_end3 <- getattr_column "end_time" ;;
  let cond (l : Lesson) :=
    sql_eq (c_vehicle l) (VId vehicle_id) &&
    sql_in (c_status l) ["scheduled"; "in_progress"] &&
    overlap_where c_start1 c_end1 c_start2 c_end2 c_start3 c_end3
      start_time end_time l in
  where_ <- exclude_where exclude_lesson_id cond ;;
  match filter where_ lessons with
  | [] => Ret ok
  | _ :: _ => Ret (fail "Vehicle is not available at this time")
  end.

(** [validate_schedule]; [now] is the [datetime.utcnow()] read by
    [validate_advance_booking], [vehicle_id = None] a theory lesson. *)
Definition validate_schedule (lessons : list Lesson) (now : datetime)
  (start_time end_time : datetime) (instructor_id : Z)
  (vehicle_id : option Z) (exclude_lesson_id : option Z) : pyres verdict :=
  let '(is_valid, error) := validate_business_hours start_time end_time in
  if negb is_valid then Ret (false, error) else
  let '(is_valid, error) := validate_lesson_duration start_time end_time in
  if negb is_valid then Ret (false, error) else
  let '(is_valid, error) := validate_advance_booking now start_time in
  if negb is_valid then Ret (false, error) else
  let '(is_valid, error) := validate_weekend_scheduling start_time in
  if negb is_valid then Ret (false, error) else
  r <- check_instructor_availability lessons instructor_id start_time end_time
         exclude_lesson_id ;;
  let '(is_valid, error) := r in
  if negb is_valid then Ret (false, error) else
  match vehicle_id with
  | Some v =>
      r <- check_vehicle_availability lessons v start_time end_time
             exclude_lesson_id ;;
      let '(is_valid, error) := r in
      if negb is_valid then Ret (false, error) else Ret ok
  | None => Ret ok
  end.

End ScheduleValidator.

(** ** api/lessons.py: [update_lesson_status]

    [session.get(Lesson, lesson_id)] finds the row by primary key; the
    commit writes the modified row back. *)

Module LessonsApi.

Definition get_lesson (lessons : list Lesson) (lesson_id : Z) : option Lesson :=
  find (fun l => id l =? lesson_id) lessons.

Definition put_lesson (lessons : list Lesson) (l : Lesson) : list Lesson :=
  map (fun l' => if id l' =? id l then l else l') lessons.

Definition update_lesson_status (lessons : list Lesson) (lesson_id : Z)
  (status : LessonStatus) : pyres Lesson * list Lesson :=
  match get_lesson lessons lesson_id with
  | None => (Raise (HTTPException 404 "Lesson not found"), lessons)
  | Some lesson =>
      let lesson := set_status lesson status in
      (Ret lesson, put_lesson lessons lesson)
  end.

End LessonsApi.

(** ** Money: Python [Decimal] *)

Definition qlt (x y : Q) : bool := negb (Qle_bool y x).

(** [Decimal] as a coefficient and an exponent, as [as_tuple()] gives
    them: its value is [coef * 10 ^ exponent]. *)
Record Decimal := mkDecimal { coef : Z; exponent : Z }.

Definition dec_value (d : Decimal) : Q :=
  if 0 <=? exponent d then inject_Z (coef d * 10 ^ exponent d)
  else Qmake (coef d) (Z.to_pos (10 ^ (- exponent d))).

(** ** models/payment.py, models/course.py *)

Module PaymentModel.

Inductive PaymentStatus := PENDING | COMPLETED | FAILED | REFUNDED.

Definition status_value (s : PaymentStatus) : string :=
  match s with
  | PENDING => "pending"
  | COMPLETED => "completed"
  | FAILED => "failed"
  | REFUNDED => "refunded"
  end.

(** [class Payment(PaymentBase, BaseModel, table=True)]: the fields of
    [PaymentBase], then those of [BaseModel] (timestamps, soft delete, id). *)
Record Payment := mkPayment {
  amount : Q;
  external_ref : option string;
  status : PaymentStatus;
  timestamp : datetime;
  enrollment_id : Z;
  method : string;
  created_at : datetime;
  updated_at : datetime;
  deleted_at : option datetime;
  id : Z
}.

#[export] Instance Payment_table : Table Payment := [
  ("amount", fun p => VMoney (amount p));
  ("external_ref", fun p => opt_val VStr (external_ref p));
  ("status", fun p => VStr (status_value (status p)));
  ("timestamp", fun p => VTime (timestamp p));
  ("enrollment_id", fun p => VId (enrollment_id p));
  ("method", fun p => VStr (method p));
  ("created_at", fun p => VTime (created_at p));
  ("updated_at", fun p => VTime (updated_at p));
  ("deleted_at", fun p => opt_val VTime (deleted_at p));
  ("id", fun p => VId (id p))
].

Definition with_status (p : Payment) (s : PaymentStatus) : Payment :=
  {| amount := amount p; external_ref := external_ref p; status := s;
     timestamp := timestamp p; enrollment_id := enrollment_id p;
     method := method p; created_at := created_at p;
     updated_at := updated_at p; deleted_at := deleted_at p; id := id p |}.

Definition with_external_ref (p : Payment) (r : option string) : Payment :=
  {| amount := amount p; external_ref := r; status := status p;
     timestamp := timestamp p; enrollment_id := enrollment_id p;
     method := method p; created_at := created_at p;
     updated_at := updated_at p; deleted_at := deleted_at p; id := id p |}.

(** [class Enrollment(EnrollmentBase, BaseModel, table=True)], with the
    fields the payment engine reads and writes. *)
Record Enrollment := mkEnrollment {
  enr_id : Z;
  student_id : Z;
  course_id : Z;
  total_paid : Q
}.

Definition add_paid (e : Enrollment) (x : Q) : Enrollment :=
  {| enr_id := enr_id e; student_id := student_id e; course_id := course_id e;
     total_paid := total_paid e + x |}.

(** The committed database: the payment and enrollment tables. *)
Record Store := mkStore {
  payments : list Payment;
  enrollments : list Enrollment
}.

Definition get_payment (st : Store) (pid : Z) : option Payment :=
  find (fun p => id p =? pid) (payments st).

Definition get_enrollment (st : Store) (eid : Z) : option Enrollment :=
  find (fun e => enr_id e =? eid) (enrollments st).

(** [session.add(obj); session.commit()] on a row already in the table. *)
Definition put_payment (st : Store) (p : Payment) : Store :=
  {| payments := map (fun q => if id q =? id p then p else q) (payments st);
     enrollments := enrollments st |}.

Definition put_enrollment (st : Store) (e : Enrollment) : Store :=
  {| payments := payments st;
     enrollments := map (fun e' => if enr_id e' =? enr_id e then e else e')
                        (enrollments st) |}.

(** [session.add(payment); session.commit()] on a new row. *)
Definition insert_payment (st : Store) (p : Payment) : Store :=
  {| payments := payments st ++ [p]; enrollments := enrollments st |}.

End PaymentModel.
Import PaymentModel.

(** ** Python [str] on code points below 256

    A Python string whose code points are all below 256 is a [string],
    each [ascii] read as its Latin-1 code point; [len] is
    [String.length]. *)

Module PyStr.

Definition code (c : ascii) : nat := nat_of_ascii c.

Definition in_range (lo hi n : nat) : bool := Nat.leb lo n && Nat.leb n hi.

(** [str.lower()]: A-Z and the Latin-1 capitals (but the sign at 215)
    move up by 32. *)
Definition lower_char (c : ascii) : ascii :=
  let n := code c in
  if in_range 65 90 n || (in_range 192 222 n && negb (Nat.eqb n 215))
  then ascii_of_nat (n + 32) else c.

Fixpoint lower (s : string) : string :=
  match s with
  | EmptyString => EmptyString
  | String c s => String (lower_char c) (lower s)
  end.

(** [str.isspace()], which is also what [\s] matches in a [str] regex. *)
Definition is_space (c : ascii) : bool :=
  let n := code c in
  in_range 9 13 n || in_range 28 32 n || Nat.eqb n 133 || Nat.eqb n 160.

(** [\d]: the decimal digits, in Latin-1 only 0-9. *)
Definition is_digit (c : ascii) : bool := in_range 48 57 (code c).

(** [c.isalnum()]: letters (ASCII, ª, µ, º and the Latin-1 letters) and
    digits or numerics (0-9, ², ³, ¹, ¼, ½, ¾). *)
Definition is_alnum_char (c : ascii) : bool :=
  let n := code c in
  in_range 48 57 n || in_range 65 90 n || in_range 97 122 n ||
  Nat.eqb n 170 || Nat.eqb n 181 || Nat.eqb n 186 ||
  in_range 192 214 n || in_range 216 246 n || in_range 248 255 n ||
  in_range 178 179 n || Nat.eqb n 185 || in_range 188 190 n.

Fixpoint all_chars (f : ascii -> bool) (s : string) : bool :=
  match s with
  | EmptyString => true
  | String c s => f c && all_chars f s
  end.

(** [s.isalnum()]: false on the empty string. *)
Definition isalnum (s : string) : bool :=
  match s with
  | EmptyString => false
  | _ => all_chars is_alnum_char s
  end.

(** Python truthiness of an [Optional[str]]. *)
Definition truthy (o : option string) : bool :=
  match o with
  | Some s => negb (String.eqb s "")
  | None => false
  end.

End PyStr.
Import PyStr.

(** ** The database's [sum] over a [float] column

    [Payment.amount] is a [float], a [double precision] column of the
    database.  Its [sum] is accumulated with the database's [float8pl]:
    a binary64 addition that raises when a finite sum overflows.  A
    binary64 value is written here as the rational number it stands for. *)

Module Float8.

(** [num / den] rounded to the nearest integer, ties to even ([den > 0]). *)
Definition round_half_even (num den : Z) : Z :=
  let q := num / den in
  let r := num mod den in
  match Z.compare (2 * r) den with
  | Lt => q
  | Gt => q + 1
  | Eq => if Z.even q then q else q + 1
  end.

(** [a / (d * 2^e)] as a numerator and a denominator. *)
Definition scaled (a d e : Z) : Z * Z :=
  if 0 <=? e then (a, d * 2 ^ e) else (a * 2 ^ (- e), d).

(** For [a, d > 0], the exponent [e] of the binade of [a / d]:
    [2^52 <= a / (d * 2^e) < 2^53], and no less than [-1074], the
    exponent of the subnormals. *)
Definition binade (a d : Z) : Z :=
  let e0 := Z.log2 a - Z.log2 d - 52 in
  let '(n, m) := scaled a d e0 in
  let e := if n <? 2 ^ 52 * m then e0 - 1 else e0 in
  Z.max e (-1074).

(** Rounding to binary64, to nearest with ties to even, the exponent
    unbounded above (overflow is tested apart). *)
Definition round_double (x : Q) : Q :=
  let a := Z.abs (Qnum x) in
  let d := Zpos (Qden x) in
  if a =? 0 then 0%Q else
  let e := binade a d in
  let '(n, m) := scaled a d e in
  let mant := Z.sgn (Qnum x) * round_half_even n m in
  if 0 <=? e then inject_Z (mant * 2 ^ e) else mant # Z.to_pos (2 ^ (- e)).

(** [float_overflow_error()] of the database. *)
Definition float_overflow_error : exn :=
  PyException "value out of range: overflow".

(** [float8pl] on finite operands: the rounded sum, an error when it is
    infinite (at least [2^1024] in magnitude). *)
Definition float8pl (val1 val2 : Q) : pyres Q :=
  let result := round_double (val1 + val2) in
  if Qle_bool (inject_Z (2 ^ 1024)) (Qabs result) then Raise float_overflow_error
  else Ret result.

Fixpoint float8_accum (state : Q) (vals : list Q) : pyres Q :=
  match vals with
  | [] => Ret state
  | v :: vals => state' <- float8pl state v ;; float8_accum state' vals
  end.

(** [sum] over the selected values in scan order: [NULL] ([None]) over
    no row; else the first value starts the state, the others are added
    with [float8pl]. *)
Definition sql_sum (vals : list Q) : pyres (option Q) :=
  match vals with
  | [] => Ret None
  | v :: vals => s <- float8_accum v vals ;; Ret (Some s)
  end.

End Float8.
Import Float8.

(** ** validators/payment_validator.py *)

Module PaymentValidator.

Definition MIN_PAYMENT_AMOUNT : Decimal := mkDecimal 10000 (-2).
Definition MAX_PAYMENT_AMOUNT : Decimal := mkDecimal 50000000 (-2).
Definition MAX_DAILY_PAYMENT_LIMIT : Decimal := mkDecimal 100000000 (-2).

Definition validate_amount (amount : Decimal) : verdict :=
  if Qle_bool (dec_value amount) 0%Q then
    fail "Payment amount must be greater than zero"
  else if qlt (dec_value amount) (dec_value MIN_PAYMENT_AMOUNT) then
    fail "Payment amount must be at least KES 100.00"
  else if qlt (dec_value MAX_PAYMENT_AMOUNT) (dec_value amount) then
    fail "Payment amount cannot exceed KES 500000.00"
  else if exponent amount <? -2 then
    fail "Payment amount cannot have more than 2 decimal places"
  else ok.

(** The [where] of the daily-sum query, on its four column expressions
    [Payment.user_id], [Payment.created_at] (twice) and [Payment.status]. *)
Definition day_where (c_user c_created1 c_created2 c_status : Payment -> sqlval)
  (user_id : Z) (payment_date : datetime) (p : Payment) : bool :=
  sql_eq (c_user p) (VId user_id) &&
  sql_ge (c_created1 p) (VTime (start_of_day payment_date)) &&
  sql_le (c_created2 p) (VTime (end_of_day payment_date)) &&
  sql_eq (c_status p) (VStr "completed").

(** [daily_total + amount > MAX_DAILY_PAYMENT_LIMIT] with a [Decimal]
    [daily_total]. *)
Definition limit_decision (daily_total : Q) (amount : Decimal) : verdict :=
  if qlt (dec_value MAX_DAILY_PAYMENT_LIMIT) (daily_total + dec_value amount)%Q then
    fail "Daily payment limit of KES 1000000.00 would be exceeded"
  else ok.

(** [float + Decimal] is not defined. *)
Definition float_plus_decimal_error : exn :=
  PyException "TypeError: unsupported operand type(s) for +: 'float' and 'decimal.Decimal'".

(** The decision once the query's column expressions are resolved.
    [result.scalar()] is [None] over no row, else a [float];
    [result.scalar() or Decimal("0.00")] keeps a nonzero [float], which
    cannot be added to the [Decimal] [amount]. *)
Definition daily_limit_check (c_user c_created1 c_created2 c_status : Payment -> sqlval)
  (ps : list Payment) (user_id : Z) (amount : Decimal) (payment_date : datetime)
  : pyres verdict :=
  scalar <- sql_sum (map PaymentModel.amount
              (filter (day_where c_user c_created1 c_created2 c_status user_id payment_date) ps)) ;;
  match scalar with
  | Some daily_total =>
      if Qeq_bool daily_total 0 then Ret (limit_decision 0 amount)
      else Raise float_plus_decimal_error
  | None => Ret (limit_decision 0 amount)
  end.

(** [validate_daily_limit] with [payment_date = None], so that
    [payment_date = datetime.utcnow()], here [now]. *)
Definition validate_daily_limit (ps : list Payment) (user_id : Z)
  (amount : Decimal) (now : datetime) : pyres verdict :=
  c_user <- getattr_column "user_id" ;;
  c_created1 <- getattr_column "created_at" ;;
  c_created2 <- getattr_column "created_at" ;;
  c_status <- getattr_column "status" ;;
  daily_limit_check c_user c_created1 c_created2 c_status ps user_id amount now.

Definition valid_methods : list string := ["mpesa"; "cash"; "bank_transfer"; "card"].

Definition validate_payment_method (method : string) : verdict :=
  if String.eqb method "" then fail "Payment method is required"
  else if negb (existsb (String.eqb (lower method)) valid_methods) then
    fail "Invalid payment method. Must be one of: mpesa, cash, bank_transfer, card"
  else ok.

(** [re.sub(r'[\s\-\(\)]', '', phone)] *)
Definition is_separator (c : ascii) : bool :=
  is_space c || Ascii.eqb c "-"%char || Ascii.eqb c "("%char || Ascii.eqb c ")"%char.

Fixpoint clean (s : string) : string :=
  match s with
  | EmptyString => EmptyString
  | String c s => if is_separator c then clean s else String c (clean s)
  end.

(** [\d{n}$] on what is left of the string (no newline survives [clean]). *)
Fixpoint digits (n : nat) (s : string) : bool :=
  match n, s with
  | O, EmptyString => true
  | S n, String c s => is_digit c && digits n s
  | _, _ => false
  end.

Definition is_1_or_7 (c : ascii) : bool := Ascii.eqb c "1"%char || Ascii.eqb c "7"%char.

(** [re.match(r'^254[17]\d{8}$', s)] *)
Definition match_254 (s : string) : bool :=
  match s with
  | String a (String b (String c (String d rest))) =>
      Ascii.eqb a "2"%char && Ascii.eqb b "5"%char && Ascii.eqb c "4"%char &&
      is_1_or_7 d && digits 8 rest
  | _ => false
  end.

(** [re.match(r'^0[17]\d{8}$', s)] *)
Definition match_0 (s : string) : bool :=
  match s with
  | String a (String d rest) => Ascii.eqb a "0"%char && is_1_or_7 d && digits 8 rest
  | _ => false
  end.

Definition validate_mpesa_phone (phone : string) : verdict :=
  if String.eqb phone "" then fail "Phone number is required for M-Pesa payments"
  else
    let cleaned := clean phone in
    if match_254 cleaned || match_0 cleaned then ok
    else fail "Invalid Kenyan phone number format. Use 254XXXXXXXXX or 07XXXXXXXX".

Definition validate_reference_number (reference method : string) : verdict :=
  if String.eqb reference "" then fail "Payment reference number is required"
  else if String.eqb (lower method) "mpesa" &&
          (Nat.ltb (String.length reference) 8 || Nat.ltb 15 (String.length reference)) then
    fail "M-Pesa transaction ID should be 8-15 characters"
  else if String.eqb (lower method) "mpesa" && negb (isalnum reference) then
    fail "M-Pesa transaction ID should contain only letters and numbers"
  else if Nat.ltb 100 (String.length reference) then
    fail "Reference number is too long (max 100 characters)"
  else ok.

Definition validate_payment_data (amount : Decimal) (method : string)
  (reference phone : option string) : verdict :=
  let '(is_valid, error) := validate_amount amount in
  if negb is_valid then (false, error) else
  let '(is_valid, error) := validate_payment_method method in
  if negb is_valid then (false, error) else
  let phone_check :=
    if String.eqb (lower method) "mpesa" then
      match phone with
      | Some p => if truthy phone then validate_mpesa_phone p
                  else fail "Phone number is required for M-Pesa payments"
      | None => fail "Phone number is required for M-Pesa payments"
      end
    else ok in
  let '(is_valid, error) := phone_check in
  if negb is_valid then (false, error) else
  match reference with
  | Some r =>
      if truthy reference then
        let '(is_valid, error) := validate_reference_number r method in
        if negb is_valid then (false, error) else ok
      else ok
  | None => ok
  end.

End PaymentValidator.

(** ** services/mpesa.py *)

Module MpesaService.

(** Lines 31-35 of [stk_push]: the phone number put in [PartyA] and
    [PhoneNumber]. *)
Definition normalize_phone (phone_number : string) : string :=
  match phone_number with
  | String c rest =>
      if Ascii.eqb c "0"%char then "254" ++ rest
      else if Ascii.eqb c "+"%char then rest
      else phone_number
  | EmptyString => phone_number
  end.

(** [str.encode()]: UTF-8, one byte below 128 and two bytes above. *)
Definition utf8_char (c : ascii) : list Z :=
  let n := Z.of_nat (code c) in
  if n <? 128 then [n]
  else [Z.lor 192 (Z.shiftr n 6); Z.lor 128 (Z.land n 63)].

Fixpoint encode (s : string) : list Z :=
  match s with
  | EmptyString => []
  | String c s => utf8_char c ++ encode s
  end.

Definition b64_alphabet : string :=
  "ABCDEFGHIJKLMNOPQRSTUVWXYZabcdefghijklmnopqrstuvwxyz0123456789+/".

Definition b64_char (i : Z) : ascii :=
  match String.get (Z.to_nat i) b64_alphabet with
  | Some c => c
  | None => "="%char
  end.

(** [base64.b64encode(...).decode('utf-8')]: each group of three bytes
    as a 24-bit number cut into four 6-bit indices, the last group padded
    with zero bits and [=]. *)
Fixpoint b64encode (bs : list Z) : string :=
  match bs with
  | b0 :: b1 :: b2 :: rest =>
      let n := Z.lor (Z.lor (Z.shiftl b0 16) (Z.shiftl b1 8)) b2 in
      String (b64_char (Z.shiftr n 18))
        (String (b64_char (Z.land (Z.shiftr n 12) 63))
          (String (b64_char (Z.land (Z.shiftr n 6) 63))
            (String (b64_char (Z.land n 63)) (b64encode rest))))
  | [b0; b1] =>
      let n := Z.lor (Z.shiftl b0 16) (Z.shiftl b1 8) in
      String (b64_char (Z.shiftr n 18))
        (String (b64_char (Z.land (Z.shiftr n 12) 63))
          (String (b64_char (Z.land (Z.shiftr n 6) 63)) "="))
  | [b0] =>
      let n := Z.shiftl b0 16 in
      String (b64_char (Z.shiftr n 18))
        (String (b64_char (Z.land (Z.shiftr n 12) 63)) "==")
  | [] => EmptyString
  end.

(** [get_password(shortcode, passkey, timestamp)] *)
Definition get_password (shortcode passkey timestamp : string) : string :=
  let data_to_encode := shortcode ++ passkey ++ timestamp in
  b64encode (encode data_to_encode).

End MpesaService.

(** ** api/lessons.py: [schedule_lesson] *)

Module ScheduleApi.
Import ScheduleValidator.







End ScheduleApi.

(** ** api/payments.py *)

Module PaymentsApi.

(** Name resolution inside [initiate_payment]: its local names (parameters
    and the function-level imports) and the module-level names of
    payments.py.  [datetime] is not among them. *)
Definition initiate_payment_locals : list string :=
  ["enrollment_id"; "amount"; "phone_number"; "session"; "background_tasks";
   "current_user"; "Decimal"; "PaymentValidator"; "log_audit"; "MpesaService";
   "amount_decimal"; "is_valid"; "error"; "enrollment"; "payment";
   "mpesa_response"; "checkout_request_id"; "e"].

Definition payments_module_globals : list string :=
  ["Annotated"; "List"; "UUID"; "APIRouter"; "Depends"; "HTTPException";
   "BackgroundTasks"; "Request"; "select"; "AsyncSession"; "BaseModel";
   "deps"; "db"; "Payment"; "PaymentCreate"; "PaymentRead"; "PaymentStatus";
   "Enrollment"; "User"; "router"; "initiate_payment"; "mpesa_callback";
   "read_payments"].

Definition builtins : list string :=
  ["str"; "float"; "int"; "next"; "print"; "Exception"].

Definition load_name (locals : list string) (n : string) : pyres unit :=
  if existsb (String.eqb n) (locals ++ payments_module_globals ++ builtins)
  then Ret tt else Raise (NameError n).

(** [MpesaService.stk_push]: the gateway, as what it does for this call:
    the [CheckoutRequestID] of its JSON response, or an exception. *)
Definition gateway := pyres (option string).

(** Lines 50-100: from the enrollment lookup on, once the amount and the
    daily limit have been validated.  [new_id] is the fresh primary key,
    [now] the clock, [ts] the text of [datetime.now().timestamp()]. *)
Definition initiate_after_validation (st : Store) (enrollment_id : Z)
  (amount_decimal : Decimal) (stk_push : gateway) (new_id : Z)
  (now : datetime) (ts : string) : pyres Payment * Store :=
  match get_enrollment st enrollment_id with
  | None => (Raise (HTTPException 404 "Enrollment not found"), st)
  | Some _ =>
      match load_name initiate_payment_locals "datetime" with
      | Raise e => (Raise e, st)
      | Ret _ =>
          let payment :=
            {| amount := dec_value amount_decimal;
               external_ref := Some ("PENDING_" ++ ts);
               status := PENDING; timestamp := now;
               enrollment_id := enrollment_id; method := "MPESA";
               created_at := now; updated_at := now; deleted_at := None;
               id := new_id |} in
          let st := insert_payment st payment in
          match stk_push with
          | Ret checkout_request_id =>
              let payment := with_external_ref payment checkout_request_id in
              (Ret payment, put_payment st payment)
          | Raise e =>
              let payment := with_status payment FAILED in
              (Raise (HTTPException 400 ("M-Pesa Initiation Failed: " ++ str_exn e)),
               put_payment st payment)
          end
      end
  end.

(** [initiate_payment]; [current_user] is the caller's id. *)
Definition initiate_payment (st : Store) (enrollment_id : Z)
  (amount_decimal : Decimal) (current_user : Z) (stk_push : gateway)
  (new_id : Z) (now : datetime) (ts : string) : pyres Payment * Store :=
  let '(is_valid, error) := PaymentValidator.validate_amount amount_decimal in
  if negb is_valid then
    (Raise (HTTPException 400 (match error with Some m => m | None => "" end)), st)
  else
  match PaymentValidator.validate_daily_limit (payments st) current_user
          amount_decimal now with
  | Raise e => (Raise e, st)
  | Ret (is_valid, error) =>
      if negb is_valid then
        (Raise (HTTPException 400 (match error with Some m => m | None => "" end)), st)
      else initiate_after_validation st enrollment_id amount_decimal stk_push
             new_id now ts
  end.

(** An item of [CallbackMetadata.Item], by its [Name]: the gateway sends
    [Amount] as a number and [MpesaReceiptNumber] as a string. *)
Inductive Item :=
| ItemAmount (value : Q)
| ItemMpesaReceiptNumber (value : string)
| ItemOther (name : string).

(** [payload['Body']['stkCallback']], each key read with [.get]. *)
Record StkCallback := mkStkCallback {
  MerchantRequestID : option string;
  CheckoutRequestID : option string;
  ResultCode : option Z;
  ResultDesc : option string;
  CallbackMetadata : list Item
}.

(** [next((item.get('Value') for item in callback_metadata
    if item.get('Name') == 'Amount'), 0)] *)
Fixpoint callback_amount (items : list Item) : Q :=
  match items with
  | [] => 0%Q
  | ItemAmount v :: _ => v
  | _ :: items => callback_amount items
  end.

Fixpoint callback_receipt (items : list Item) : option string :=
  match items with
  | [] => None
  | ItemMpesaReceiptNumber v :: _ => Some v
  | _ :: items => callback_receipt items
  end.

(** [Payment.external_ref == checkout_request_id]; against [None]
    SQLAlchemy emits [IS NULL]. *)
Definition ref_matches (r cid : option string) : bool :=
  match r, cid with
  | Some a, Some b => String.eqb a b
  | None, None => true
  | _, _ => false
  end.

Definition find_by_ref (st : Store) (cid : option string) : option Payment :=
  find (fun p => ref_matches (external_ref p) cid) (payments st).

(** The [{"status": ...}] answered to the gateway. *)
Definition response := string.

Definition try_except (body : pyres response * Store) (st : Store)
  : pyres response * Store :=
  match body with
  | (Raise _, _) => (Ret "Error", st)
  | r => r
  end.

Definition mpesa_callback (st : Store) (stk_callback : StkCallback)
  : pyres response * Store :=
  try_except
    (let checkout_request_id := CheckoutRequestID stk_callback in
     let result_code := ResultCode stk_callback in
     match find_by_ref st checkout_request_id with
     | None => (Ret "Payment not found", st)
     | Some payment =>
         let st' :=
           match result_code with
           | Some 0 =>
               let items := CallbackMetadata stk_callback in
               let amount := callback_amount items in
               let mpesa_receipt_number := callback_receipt items in
               let payment :=
                 with_external_ref (with_status payment COMPLETED)
                   mpesa_receipt_number in
               let st := match get_enrollment st (enrollment_id payment) with
                         | Some enrollment =>
                             put_enrollment st (add_paid enrollment amount)
                         | None => st
                         end in
               put_payment st payment
           | _ => put_payment st (with_status payment FAILED)
           end in
         (Ret "Callback Processed", st')
     end)
    st.

End PaymentsApi.

(** ** Definitions used to state the properties *)

Module Props.
Import ScheduleValidator PaymentsApi.

(** The business-hour window check: the two validators of
    [validate_schedule] that look at the time of day and the weekday. *)
Definition business_window_ok (start_time end_time : datetime) : bool :=
  fst (validate_business_hours start_time end_time) &&
  fst (validate_weekend_scheduling start_time).

(** Running checks in a fixed order, returning the first failure. *)
Fixpoint run_checks (checks : list (pyres verdict)) : pyres verdict :=
  match checks with
  | [] => Ret ok
  | c :: checks =>
      v <- c ;;
      if fst v then run_checks checks else Ret (false, snd v)
  end.

(** The columns [Payment.created_at] and [Payment.status] resolve to. *)
Definition created_at_col (p : Payment) : sqlval := VTime (created_at p).
Definition status_col (p : Payment) : sqlval := VStr (status_value (status p)).



(** A few concrete evaluations of the model. *)
Example weekday_sat : weekday (at_ 5 10 0) = 5.
Proof. reflexivity. Qed.
Example hour_minute : hour (at_ 3 18 45) = 18 /\ minute (at_ 3 18 45) = 45.
Proof. split; reflexivity. Qed.
Example bh_monday_ok : business_window_ok (at_ 0 10 0) (at_ 0 11 0) = true.
Proof. reflexivity. Qed.
Example bh_sunday : validate_weekend_scheduling (at_ 6 10 0)
  = fail "Lessons are not available on Sundays".
Proof. reflexivity. Qed.
Example amount_50 : fst (PaymentValidator.validate_amount (mkDecimal 50 0)) = false.
Proof. reflexivity. Qed.
Example amount_5000 : PaymentValidator.validate_amount (mkDecimal 50000 (-1)) = ok.
Proof. reflexivity. Qed.
Example end_of_day_0 : end_of_day (at_ 2 13 0) = at_ 3 0 0 - 1.
Proof. reflexivity. Qed.

(** The database's float [sum]: [0.1 + 0.2] is the double
    [5404319552844596 / 2^54], [0.1 + 0.2 - 0.3] is not zero, and
    [2^1023 + 2^1023] overflows. *)
Example float_sum_01_02 :
  Float8.sql_sum [Float8.round_double (1#10); Float8.round_double (2#10)] =
  Ret (Some (5404319552844596 # Z.to_pos (2 ^ 54))).
Proof. vm_compute. reflexivity. Qed.

Example float_sum_not_zero :
  match Float8.sql_sum [Float8.round_double (1#10); Float8.round_double (2#10);
                        Qopp (Float8.round_double (3#10))] with
  | Ret (Some t) => Qeq_bool t 0 = false
  | _ => False
  end.
Proof. vm_compute. reflexivity. Qed.

Example float_sum_overflow :
  Float8.sql_sum [inject_Z (2 ^ 1023); inject_Z (2 ^ 1023)] =
  Raise Float8.float_overflow_error.
Proof. vm_compute. reflexivity. Qed.

End Props.

(** ** Definitions used to state the further properties *)

Module ExtraProps.
Import MpesaService.

(** A validator's answer is [ok] or a failure carrying a message. *)
Definition rejects (v : verdict) : Prop := v = ok \/ exists m, v = fail m.

(** Every character below 128: one UTF-8 byte each. *)
Definition ascii_only (s : string) : bool := all_chars (fun c => Nat.ltb (code c) 128) s.

(** [base64.b64decode] on padded input: the position of a character in
    the alphabet, and the four 6-bit indices of a group put back together. *)
Fixpoint index_of (c : ascii) (s : string) (i : Z) : option Z :=
  match s with
  | EmptyString => None
  | String d s => if Ascii.eqb c d then Some i else index_of c s (i + 1)
  end.

Definition b64_index (c : ascii) : option Z := index_of c b64_alphabet 0.

Definition join4 (i0 i1 i2 i3 : Z) : Z :=
  Z.lor (Z.lor (Z.lor (Z.shiftl i0 18) (Z.shiftl i1 12)) (Z.shiftl i2 6)) i3.

Fixpoint b64decode (s : string) : option (list Z) :=
  match s with
  | EmptyString => Some []
  | String c0 (String c1 (String c2 (String c3 rest))) =>
      match b64_index c0, b64_index c1, b64_index c2, b64_index c3 with
      | Some i0, Some i1, Some i2, Some i3 =>
          let n := join4 i0 i1 i2 i3 in
          match b64decode rest with
          | Some bs => Some (Z.shiftr n 16 :: Z.land (Z.shiftr n 8) 255 :: Z.land n 255 :: bs)
          | None => None
          end
      | Some i0, Some i1, Some i2, None =>
          if Ascii.eqb c3 "=" && String.eqb rest "" then
            let n := join4 i0 i1 i2 0 in
            Some [Z.shiftr n 16; Z.land (Z.shiftr n 8) 255]
          else None
      | Some i0, Some i1, None, None =>
          if Ascii.eqb c2 "=" && Ascii.eqb c3 "=" && String.eqb rest "" then
            Some [Z.shiftr (join4 i0 i1 0 0) 16]
          else None
      | _, _, _, _ => None
      end
  | _ => None
  end.

(** A value that fits in a byte. *)
Definition is_byte (b : Z) : bool := (0 <=? b) && (b <? 256).

End ExtraProps.

(** * Properties of the scheduling engine *)

(** Case analysis on every integer comparison of the goal. *)
Ltac zcase :=
  repeat match goal with
  | |- context [Z.leb ?x ?y] => destruct (Z.leb_spec x y)
  | |- context [Z.ltb ?x ?y] => destruct (Z.ltb_spec x y)
  | |- context [Z.eqb ?x ?y] => destruct (Z.eqb_spec x y)
  end; simpl.


Module ScheduleProofs.
Import ScheduleValidator Props.

Lemma overlap_where_iff {T} (cs ce : T -> sqlval) (r : T) (s e a b : datetime) :
  cs r = VTime s -> ce r = VTime e -> s < e -> a < b ->
  overlap_where cs ce cs ce cs ce a b r = true <-> s < b /\ a < e.
Proof.
  intros Hs He Hse Hab. unfold overlap_where, sql_le, sql_lt, sql_ge, sql_gt, sql_cmp.
  rewrite Hs, He. zcase; split; intro Hc; try lia; try discriminate; auto.
Qed.

(** Claim C3.  For a well-formed existing lesson [[s, e)] (s < e), the
    three-disjunct conflict condition of the availability queries holds
    exactly when [[s, e)] intersects the query window, for any well-formed
    window [[a, b)]; in particular for the instructor window
    [[start - MIN_BREAK_MINUTES, end + MIN_BREAK_MINUTES)] and the vehicle
    window [[start, end)] of a request with start < end. *)
Theorem conflict_condition_iff_intersection {T} (cs ce : T -> sqlval) (r : T)
  (s e start_time end_time : datetime) :
  cs r = VTime s -> ce r = VTime e -> s < e -> start_time < end_time ->
  (forall a b, a < b ->
     overlap_where cs ce cs ce cs ce a b r = true <-> s < b /\ a < e) /\
  (overlap_where cs ce cs ce cs ce
     (start_time - minutes MIN_BREAK_MINUTES) (end_time + minutes MIN_BREAK_MINUTES) r = true
   <-> s < end_time + minutes MIN_BREAK_MINUTES /\
       start_time - minutes MIN_BREAK_MINUTES < e) /\
  (overlap_where cs ce cs ce cs ce start_time end_time r = true
   <-> s < end_time /\ start_time < e).
Proof.
  intros Hs He Hse Hw. split; [|split].
  - intros a b Hab. now apply overlap_where_iff.
  - apply overlap_where_iff; auto. unfold minutes, MIN_BREAK_MINUTES, MINUTE, SECOND. lia.
  - now apply overlap_where_iff.
Qed.

Lemma conflict_condition_iff_intersection_witness :
  (fun p : Z * Z => VTime (fst p)) (at_ 0 10 0, at_ 0 11 0) = VTime (at_ 0 10 0) /\
  (fun p : Z * Z => VTime (snd p)) (at_ 0 10 0, at_ 0 11 0) = VTime (at_ 0 11 0) /\
  at_ 0 10 0 < at_ 0 11 0 /\ at_ 0 10 45 < at_ 0 11 15 /\
  overlap_where (fun p : Z * Z => VTime (fst p)) (fun p => VTime (snd p))
    (fun p => VTime (fst p)) (fun p => VTime (snd p))
    (fun p => VTime (fst p)) (fun p => VTime (snd p))
    (at_ 0 10 45 - minutes MIN_BREAK_MINUTES) (at_ 0 11 15 + minutes MIN_BREAK_MINUTES)
    (at_ 0 10 0, at_ 0 11 0) = true.
Proof.
  assert (H : at_ 0 10 0 < at_ 0 11 0) by (vm_compute; reflexivity).
  assert (H' : at_ 0 10 45 < at_ 0 11 15) by (vm_compute; reflexivity).
  do 4 (split; [reflexivity || assumption|]).
  destruct (conflict_condition_iff_intersection (fun p : Z * Z => VTime (fst p))
              (fun p => VTime (snd p)) (at_ 0 10 0, at_ 0 11 0)
              (at_ 0 10 0) (at_ 0 11 0) (at_ 0 10 45) (at_ 0 11 15)
              eq_refl eq_refl H H') as [_ [Hi _]].
  apply Hi. split; vm_compute; reflexivity.
Defined.

(** Claim C4, as stated, fails: a weekday lesson ending at 19:00 is
    rejected, and a Saturday lesson ending at 18:00 is accepted. *)
Lemma business_window_counterexample :
  business_window_ok (at_ 0 18 0) (at_ 0 19 0) = false /\
  business_window_ok (at_ 5 16 0) (at_ 5 18 0) = true.
Proof. split; reflexivity. Qed.

(** Claim C4 (amended).  Leaving aside end times within the 19:00 minute,
    the business-hour window check accepts exactly when the start is not
    on a Sunday, the start hour is in [7, 19), the end's hour of day is
    before 19, and on a Saturday the start hour is in [8, 17).  The end's
    date, its earliest hour and its Saturday bound are not checked. *)
Theorem business_window_characterisation (start_time end_time : datetime) :
  ~ (hour end_time = 19 /\ minute end_time = 0) ->
  business_window_ok start_time end_time = true <->
  weekday start_time <> 6 /\ 7 <= hour start_time < 19 /\ hour end_time < 19 /\
  (weekday start_time = 5 -> 8 <= hour start_time < 17).
Proof.
  intros _. unfold business_window_ok, validate_business_hours,
    validate_weekend_scheduling, BUSINESS_START_HOUR, BUSINESS_END_HOUR.
  zcase; split; intro Hc; simpl in *; try discriminate;
    try (destruct Hc as (Hc1 & Hc2 & Hc3 & Hc4)); try lia; auto.
Qed.

Lemma business_window_characterisation_witness :
  ~ (hour (at_ 5 17 0) = 19 /\ minute (at_ 5 17 0) = 0) /\
  business_window_ok (at_ 5 16 0) (at_ 5 17 0) = true.
Proof.
  assert (H : ~ (hour (at_ 5 17 0) = 19 /\ minute (at_ 5 17 0) = 0))
    by (vm_compute; intros [Hc _]; discriminate).
  split; [exact H|].
  apply (business_window_characterisation (at_ 5 16 0) (at_ 5 17 0) H).
  assert (Hw : weekday (at_ 5 16 0) = 5) by reflexivity.
  assert (Hh : hour (at_ 5 16 0) = 16) by reflexivity.
  assert (He : hour (at_ 5 17 0) = 17) by reflexivity.
  rewrite Hw, Hh, He. lia.
Defined.

(** Claim C5, as stated, fails: a request that starts at 06:00 and ends
    at 05:30 is answered with the business-hours error, not with the
    end-after-start error the claim's order puts first. *)
Lemma validate_schedule_order_counterexample :
  validate_schedule [] (at_ 0 0 0) (at_ 0 6 0) (at_ 0 5 30) 1 None None
    = Ret (fail "Lessons cannot start before 7:00 AM") /\
  validate_lesson_duration (at_ 0 6 0) (at_ 0 5 30)
    = fail "Lesson end time must be after start time".
Proof. split; reflexivity. Qed.

(** Claim C5 (amended).  [validate_schedule] runs its checks in this fixed
    order and returns the first failure: (1) business hours (start hour
    at least 7, end hour before 19, start hour before 19), (2) end after
    start and duration in [30, 180] minutes, (3) the advance-booking
    window, (4) the Sunday and Saturday rules, (5) instructor availability,
    (6) vehicle availability, only when a vehicle is given. *)
Theorem validate_schedule_check_order (lessons : list Lesson) (now : datetime)
  (start_time end_time : datetime) (instructor_id : Z)
  (vehicle_id exclude_lesson_id : option Z) :
  validate_schedule lessons now start_time end_time instructor_id vehicle_id
    exclude_lesson_id =
  run_checks
    ([Ret (validate_business_hours start_time end_time);
      Ret (validate_lesson_duration start_time end_time);
      Ret (validate_advance_booking now start_time);
      Ret (validate_weekend_scheduling start_time);
      check_instructor_availability lessons instructor_id start_time end_time
        exclude_lesson_id] ++
     match vehicle_id with
     | Some v => [check_vehicle_availability lessons v start_time end_time
                    exclude_lesson_id]
     | None => []
     end).
Proof.
  unfold validate_schedule.
  destruct (validate_business_hours start_time end_time) as [[|] ?]; [|reflexivity].
  destruct (validate_lesson_duration start_time end_time) as [[|] ?]; [|reflexivity].
  destruct (validate_advance_booking now start_time) as [[|] ?]; [|reflexivity].
  destruct (validate_weekend_scheduling start_time) as [[|] ?]; [|reflexivity].
  simpl.
  destruct (check_instructor_availability lessons instructor_id start_time end_time
              exclude_lesson_id) as [[[|] ?]|]; simpl; [|reflexivity|reflexivity].
  destruct vehicle_id as [v|]; simpl; [|reflexivity].
  destruct (check_vehicle_availability lessons v start_time end_time exclude_lesson_id)
    as [[[|] ?]|]; reflexivity.
Qed.

(** Claim C10.  The persisted [Lesson] table declares no [start_time] and
    no [end_time] column: both availability checks raise [AttributeError]
    on [Lesson.start_time] for every lesson table and every request, so
    they never look at the stored lessons; hence a request that passes the
    four static checks makes [validate_schedule] raise. *)
Theorem availability_checks_raise (lessons : list Lesson) (instructor_id : Z)
  (start_time end_time : datetime) (exclude_lesson_id : option Z) :
  check_instructor_availability lessons instructor_id start_time end_time
    exclude_lesson_id = Raise (AttributeError "start_time") /\
  (forall vehicle_id,
     check_vehicle_availability lessons vehicle_id start_time end_time
       exclude_lesson_id = Raise (AttributeError "start_time")) /\
  (forall now vehicle_id,
     fst (validate_business_hours start_time end_time) = true ->
     fst (validate_lesson_duration start_time end_time) = true ->
     fst (validate_advance_booking now start_time) = true ->
     fst (validate_weekend_scheduling start_time) = true ->
     validate_schedule lessons now start_time end_time instructor_id vehicle_id
       exclude_lesson_id = Raise (AttributeError "start_time")).
Proof.
  assert (Hi : check_instructor_availability lessons instructor_id start_time end_time
                 exclude_lesson_id = Raise (AttributeError "start_time"))
    by reflexivity.
  split; [exact Hi|]. split; [reflexivity|].
  intros now vehicle_id H1 H2 H3 H4. unfold validate_schedule.
  destruct (validate_business_hours start_time end_time) as [[|] ?]; [|discriminate].
  destruct (validate_lesson_duration start_time end_time) as [[|] ?]; [|discriminate].
  destruct (validate_advance_booking now start_time) as [[|] ?]; [|discriminate].
  destruct (validate_weekend_scheduling start_time) as [[|] ?]; [|discriminate].
  simpl negb; cbv iota beta. rewrite Hi. reflexivity.
Qed.

Lemma availability_checks_raise_witness :
  fst (validate_business_hours (at_ 7 10 0) (at_ 7 11 0)) = true /\
  fst (validate_lesson_duration (at_ 7 10 0) (at_ 7 11 0)) = true /\
  fst (validate_advance_booking (at_ 0 9 0) (at_ 7 10 0)) = true /\
  fst (validate_weekend_scheduling (at_ 7 10 0)) = true /\
  validate_schedule [] (at_ 0 9 0) (at_ 7 10 0) (at_ 7 11 0) 1 (Some 2) None
    = Raise (AttributeError "start_time").
Proof.
  do 4 (split; [reflexivity|]).
  destruct (availability_checks_raise [] 1 (at_ 7 10 0) (at_ 7 11 0) None)
    as [_ [_ H]].
  apply H; reflexivity.
Defined.

End ScheduleProofs.

(** * Lists updated by primary key *)

Lemma find_replace {A} (key : A -> Z) (x : A) (l : list A) :
  (exists y, In y l /\ key y = key x) ->
  find (fun y => key y =? key x) (map (fun y => if key y =? key x then x else y) l)
  = Some x.
Proof.
  induction l as [|a l IH]; intros [y [Hin Hk]]; [destruct Hin|].
  simpl. destruct (Z.eqb_spec (key a) (key x)) as [E|E].
  - simpl. rewrite Z.eqb_refl. reflexivity.
  - simpl. rewrite (proj2 (Z.eqb_neq _ _) E). apply IH.
    destruct Hin as [<-|Hin]; [contradiction|eauto].
Qed.

(** * Properties of the lesson status update *)

Module LessonProofs.
Import LessonsApi LessonModel.

(** Claim C8, as stated, fails: a COMPLETED lesson is moved back to
    SCHEDULED by [update_lesson_status]. *)
Lemma update_lesson_status_counterexample :
  let l := mkLesson 1 (at_ 0 10 0) COMPLETED PRACTICAL None 60 1 1 None in
  update_lesson_status [l] 1 SCHEDULED
    = (Ret (set_status l SCHEDULED), [set_status l SCHEDULED]) /\
  LessonModel.status l = COMPLETED /\
  LessonModel.status (set_status l SCHEDULED) = SCHEDULED.
Proof. repeat split. Qed.

(** Claim C8 (amended).  [update_lesson_status] stores and returns the
    requested status whatever the lesson's current status, terminal ones
    included; an unknown lesson id raises a 404 and writes nothing. *)
Theorem update_lesson_status_sets_requested (lessons : list Lesson)
  (lesson_id : Z) (s : LessonStatus) :
  (forall l, get_lesson lessons lesson_id = Some l ->
     update_lesson_status lessons lesson_id s
       = (Ret (set_status l s), put_lesson lessons (set_status l s)) /\
     get_lesson (put_lesson lessons (set_status l s)) lesson_id
       = Some (set_status l s) /\
     LessonModel.status (set_status l s) = s) /\
  (get_lesson lessons lesson_id = None ->
     update_lesson_status lessons lesson_id s
       = (Raise (HTTPException 404 "Lesson not found"), lessons)).
Proof.
  split.
  - intros l Hl. unfold update_lesson_status. rewrite Hl.
    split; [reflexivity|]. split; [|reflexivity].
    apply find_some in Hl as [Hin Hid]. apply Z.eqb_eq in Hid.
    unfold get_lesson, put_lesson.
    replace lesson_id with (LessonModel.id (set_status l s)) by (simpl; lia).
    apply (find_replace LessonModel.id). exists l. split; [exact Hin|reflexivity].
  - intros Hn. unfold update_lesson_status. rewrite Hn. reflexivity.
Qed.

Lemma update_lesson_status_sets_requested_witness :
  let l := mkLesson 1 (at_ 0 10 0) COMPLETED PRACTICAL None 60 1 1 None in
  get_lesson [l] 1 = Some l /\ get_lesson [l] 2 = None /\
  LessonModel.status (set_status l CANCELLED) = CANCELLED.
Proof.
  intros l. split; [reflexivity|]. split; [reflexivity|].
  destruct (update_lesson_status_sets_requested [l] 1 CANCELLED) as [H _].
  apply (H l). reflexivity.
Defined.

End LessonProofs.

(** * Properties of the M-Pesa callback *)

Module CallbackProofs.
Import PaymentsApi.




Lemma get_enrollment_put_payment (st : Store) (p : Payment) (eid : Z) :
  get_enrollment (put_payment st p) eid = get_enrollment st eid.
Proof. reflexivity. Qed.

(** The payment the callback updates, once matched. *)
Definition completed_payment (p : Payment) (cb : StkCallback) : Payment :=
  with_external_ref (with_status p COMPLETED) (callback_receipt (CallbackMetadata cb)).

(** What a matched callback commits. *)
Lemma callback_matched (st : Store) (cb : StkCallback) (p : Payment) :
  find_by_ref st (CheckoutRequestID cb) = Some p ->
  mpesa_callback st cb =
  (Ret "Callback Processed",
   match ResultCode cb with
   | Some 0 =>
       put_payment
         (match get_enrollment st (enrollment_id p) with
          | Some e => put_enrollment st (add_paid e (callback_amount (CallbackMetadata cb)))
          | None => st
          end)
         (completed_payment p cb)
   | _ => put_payment st (with_status p FAILED)
   end).
Proof.
  intros H. unfold mpesa_callback, try_except. rewrite H.
  destruct (ResultCode cb) as [[| |]|]; reflexivity.
Qed.

(** Claim C9.  A callback whose correlation id matches the external
    reference of no stored payment raises nothing, changes no payment and
    no enrollment, and is answered "Payment not found". *)
Theorem callback_unmatched_noop (st : Store) (cb : StkCallback) :
  (forall p, In p (payments st) ->
     ref_matches (external_ref p) (CheckoutRequestID cb) = false) ->
  mpesa_callback st cb = (Ret "Payment not found", st).
Proof.
  intros H. unfold mpesa_callback, try_except, find_by_ref.
  destruct (find (fun p => ref_matches (external_ref p) (CheckoutRequestID cb))
                 (payments st)) as [p|] eqn:E; [|reflexivity].
  apply find_some in E as [Hin Hm]. rewrite (H p Hin) in Hm. discriminate.
Qed.

Definition sample_payment (r : option string) (s : PaymentStatus) : Payment :=
  mkPayment 5000 r s (at_ 0 9 0) 10 "MPESA" (at_ 0 9 0) (at_ 0 9 0) None 1.
Definition sample_enrollment : Enrollment := mkEnrollment 10 3 4 0.
Definition sample_callback (cid : option string) (receipt : list Item) : StkCallback :=
  mkStkCallback (Some "29115-34620561-1") cid (Some 0)
    (Some "The service request is processed successfully.")
    (ItemAmount 5000 :: receipt).

Lemma callback_unmatched_noop_witness :
  let st := mkStore [sample_payment (Some "ws_CO_1") PENDING] [sample_enrollment] in
  let cb := sample_callback (Some "ws_CO_2") [ItemMpesaReceiptNumber "QGK7XZYR4M"] in
  (forall p, In p (payments st) ->
     ref_matches (external_ref p) (CheckoutRequestID cb) = false) /\
  mpesa_callback st cb = (Ret "Payment not found", st).
Proof.
  intros st cb.
  assert (H : forall p, In p (payments st) ->
                ref_matches (external_ref p) (CheckoutRequestID cb) = false).
  { intros p [<-|[]]. reflexivity. }
  split; [exact H|]. exact (callback_unmatched_noop st cb H).
Defined.






Lemma callback_unmatched (st : Store) (cb : StkCallback) :
  find_by_ref st (CheckoutRequestID cb) = None ->
  mpesa_callback st cb = (Ret "Payment not found", st).
Proof. intros H. unfold mpesa_callback, try_except. rewrite H. reflexivity. Qed.





End CallbackProofs.

(** * Properties of payment initiation *)

Module InitiateProofs.
Import PaymentValidator PaymentsApi Props.

Lemma qlt_iff (x y : Q) : qlt x y = true <-> (x < y)%Q.
Proof.
  unfold qlt. rewrite negb_true_iff. split; intro H.
  - apply Qnot_le_lt. intro Hle. apply Qle_bool_iff in Hle. congruence.
  - destruct (Qle_bool y x) eqn:E; [|reflexivity].
    apply Qle_bool_iff in E. exfalso. exact (Qlt_not_le _ _ H E).
Qed.


(** The query's [Payment.created_at] and [Payment.status] resolve. *)
Lemma payment_columns_resolve :
  getattr_column "created_at" = Ret created_at_col /\
  getattr_column "status" = Ret status_col.
Proof. split; reflexivity. Qed.







(** Claim C7 (code defect).  [initiate_payment] never writes a payment
    row: after a valid amount, [validate_daily_limit] raises on
    [Payment.user_id], a column the [Payment] table does not declare; and
    past validation, the placeholder reference [datetime.now()] raises
    [NameError], [datetime] not being imported in payments.py, before the
    PENDING row is added.  The store is left unchanged in every case. *)
Theorem initiate_payment_writes_no_row (st : Store) (enrollment_id : Z)
  (amount_decimal : Decimal) (current_user : Z) (stk_push : gateway)
  (new_id : Z) (now : datetime) (ts : string) :
  (exists e, fst (initiate_payment st enrollment_id amount_decimal current_user
                    stk_push new_id now ts) = Raise e) /\
  snd (initiate_payment st enrollment_id amount_decimal current_user stk_push
         new_id now ts) = st /\
  (fst (validate_amount amount_decimal) = true ->
   initiate_payment st enrollment_id amount_decimal current_user stk_push new_id now ts
     = (Raise (AttributeError "user_id"), st)) /\
  (get_enrollment st enrollment_id <> None ->
   initiate_after_validation st enrollment_id amount_decimal stk_push new_id now ts
     = (Raise (NameError "datetime"), st)).
Proof.
  split; [|split; [|split]].
  - unfold initiate_payment.
    destruct (validate_amount amount_decimal) as [[|] ?]; simpl; eauto.
  - unfold initiate_payment.
    destruct (validate_amount amount_decimal) as [[|] ?]; reflexivity.
  - intros H. unfold initiate_payment.
    destruct (validate_amount amount_decimal) as [[|] ?]; [reflexivity|discriminate].
  - intros H. unfold initiate_after_validation.
    destruct (get_enrollment st enrollment_id); [reflexivity|contradiction].
Qed.

Lemma initiate_payment_writes_no_row_witness :
  let st := mkStore [] [mkEnrollment 10 3 4 0] in
  fst (validate_amount (mkDecimal 50000 (-1))) = true /\
  get_enrollment st 10 <> None /\
  initiate_payment st 10 (mkDecimal 50000 (-1)) 3 (Ret (Some "ws_CO_1")) 1
    (at_ 0 9 0) "1704099600.0" = (Raise (AttributeError "user_id"), st) /\
  initiate_after_validation st 10 (mkDecimal 50000 (-1)) (Ret (Some "ws_CO_1")) 1
    (at_ 0 9 0) "1704099600.0" = (Raise (NameError "datetime"), st).
Proof.
  intros st.
  assert (Ha : fst (validate_amount (mkDecimal 50000 (-1))) = true) by reflexivity.
  assert (He : get_enrollment st 10 <> None) by discriminate.
  destruct (initiate_payment_writes_no_row st 10 (mkDecimal 50000 (-1)) 3
              (Ret (Some "ws_CO_1")) 1 (at_ 0 9 0) "1704099600.0")
    as [_ [_ [H1 H2]]].
  split; [exact Ha|]. split; [exact He|]. split; [exact (H1 Ha)|exact (H2 He)].
Defined.

End InitiateProofs.

(** * Further properties: schedule validation and lesson booking *)

Module ValidatorProofs.
Import ScheduleValidator ScheduleApi ExtraProps.

Ltac verdict_cases :=
  repeat match goal with |- context [if ?b then _ else _] => destruct b end; eauto.


Lemma instructor_check_raises lessons i s e x :
  check_instructor_availability lessons i s e x = Raise (AttributeError "start_time").
Proof. reflexivity. Qed.


(** [validate_lesson_duration] accepts exactly the lessons whose length is
    between 30 and 180 minutes, bounds included. *)
Theorem validate_lesson_duration_bounds s e :
  validate_lesson_duration s e = ok <->
  minutes MIN_LESSON_DURATION_MINUTES <= e - s <= minutes MAX_LESSON_DURATION_MINUTES.
Proof.
  unfold validate_lesson_duration, minutes, MINUTE, SECOND,
    MIN_LESSON_DURATION_MINUTES, MAX_LESSON_DURATION_MINUTES.
  zcase; split; intro Hc; try discriminate; try reflexivity; lia.
Qed.

(** [validate_advance_booking] accepts exactly the start times between two
    hours and 90 days after [now], bounds included; it answers "Cannot
    schedule lessons in the past" exactly when the start is before [now]. *)
Theorem validate_advance_booking_window now s :
  (validate_advance_booking now s = ok <->
   now + hours MIN_ADVANCE_BOOKING_HOURS <= s <= now + days MAX_ADVANCE_BOOKING_DAYS) /\
  (snd (validate_advance_booking now s) = Some "Cannot schedule lessons in the past" <->
   s < now).
Proof.
  unfold validate_advance_booking, hours, days, DAY, HOUR, MINUTE, SECOND,
    MIN_ADVANCE_BOOKING_HOURS, MAX_ADVANCE_BOOKING_DAYS.
  zcase; split; split; intro Hc; try discriminate; try reflexivity; try lia.
Qed.




End ValidatorProofs.

(** * Further properties: payment validation *)

Module PaymentValidatorProofs.
Import PaymentValidator MpesaService ExtraProps.

Lemma Qle_scaled (a : Z) (x : Q) :
  ((a * 100) # 100 <= x)%Q <-> (a # 1 <= x)%Q.
Proof. unfold Qle; simpl. nia. Qed.

Lemma Qle_scaled' (a : Z) (x : Q) :
  (x <= (a * 100) # 100)%Q <-> (x <= a # 1)%Q.
Proof. unfold Qle; simpl. nia. Qed.

(** [validate_amount] accepts exactly the amounts from 100 to 500000,
    bounds included, written with at most two decimal places. *)
Theorem validate_amount_accepts d :
  validate_amount d = ok <->
  (100 <= dec_value d <= 500000)%Q /\ -2 <= exponent d.
Proof.
  unfold validate_amount.
  change (dec_value MIN_PAYMENT_AMOUNT) with ((100 * 100) # 100)%Q.
  change (dec_value MAX_PAYMENT_AMOUNT) with ((500000 * 100) # 100)%Q.
  destruct (Qle_bool (dec_value d) 0) eqn:E0.
  - apply Qle_bool_iff in E0. split; [discriminate|]. intros [[H _] _].
    exfalso. apply (Qlt_not_le 0 (dec_value d)); [|exact E0].
    apply Qlt_le_trans with (100 # 1)%Q; [reflexivity|exact H].
  - destruct (qlt (dec_value d) ((100 * 100) # 100)) eqn:E1.
    + apply InitiateProofs.qlt_iff in E1. split; [discriminate|].
      intros [[H _] _]. exfalso. apply (Qlt_not_le _ _ E1). now apply Qle_scaled.
    + destruct (qlt ((500000 * 100) # 100) (dec_value d)) eqn:E2.
      * apply InitiateProofs.qlt_iff in E2. split; [discriminate|].
        intros [[_ H] _]. exfalso. apply (Qlt_not_le _ _ E2). now apply Qle_scaled'.
      * assert (H1 : (100 <= dec_value d)%Q).
        { apply (Qle_scaled 100). apply Qnot_lt_le. intro H.
          apply InitiateProofs.qlt_iff in H. congruence. }
        assert (H2 : (dec_value d <= 500000)%Q).
        { apply (Qle_scaled' 500000). apply Qnot_lt_le. intro H.
          apply InitiateProofs.qlt_iff in H. congruence. }
        zcase; split; intro Hc; try discriminate; try reflexivity; try lia.
        all: try (split; [split|]; [exact H1|exact H2|lia]).
Qed.

Lemma amount_shape d : rejects (validate_amount d).
Proof. unfold rejects, validate_amount. ValidatorProofs.verdict_cases. Qed.
Lemma method_shape m : rejects (validate_payment_method m).
Proof. unfold rejects, validate_payment_method. ValidatorProofs.verdict_cases. Qed.
Lemma phone_shape p : rejects (validate_mpesa_phone p).
Proof. unfold rejects, validate_mpesa_phone. ValidatorProofs.verdict_cases. Qed.
Lemma reference_shape r m : rejects (validate_reference_number r m).
Proof. unfold rejects, validate_reference_number. ValidatorProofs.verdict_cases. Qed.

Lemma lower_char_idem c : lower_char (lower_char c) = lower_char c.
Proof. destruct c as [[] [] [] [] [] [] [] []]; reflexivity. Qed.

Lemma lower_idem s : lower (lower s) = lower s.
Proof. induction s as [|c s IH]; [reflexivity|]. simpl. now rewrite lower_char_idem, IH. Qed.

Lemma lower_empty s : String.eqb (lower s) "" = String.eqb s "".
Proof. destruct s; reflexivity. Qed.

Lemma clean_separator s1 c s2 : is_separator c = true ->
  clean (s1 ++ String c s2) = clean (s1 ++ s2).
Proof.
  intros Hc. induction s1 as [|a s1 IH]; simpl.
  - now rewrite Hc.
  - now rewrite IH.
Qed.

(** [validate_mpesa_phone] does not see a whitespace, '-', '(' or ')'
    character put anywhere in a non-empty phone number. *)
Theorem validate_mpesa_phone_ignores_separators s1 c s2 :
  is_separator c = true -> s1 ++ s2 <> "" ->
  validate_mpesa_phone (s1 ++ String c s2) = validate_mpesa_phone (s1 ++ s2).
Proof.
  intros Hc Hne. unfold validate_mpesa_phone.
  replace (String.eqb (s1 ++ String c s2) "") with false by (destruct s1; reflexivity).
  replace (String.eqb (s1 ++ s2) "") with false
    by (symmetry; apply String.eqb_neq; exact Hne).
  now rewrite clean_separator.
Qed.

Lemma validate_mpesa_phone_ignores_separators_witness :
  is_separator " "%char = true /\ "0712" ++ "345678" <> "" /\
  validate_mpesa_phone ("0712" ++ String " " "345678") =
  validate_mpesa_phone ("0712" ++ "345678").
Proof.
  split; [reflexivity|]. split; [discriminate|].
  apply validate_mpesa_phone_ignores_separators; [reflexivity | discriminate].
Defined.

(** A phone number accepted by [validate_mpesa_phone] and written without
    separators becomes, after the rewriting of [stk_push], a number of
    the 254 format ([^254[17]\d{8}$]). *)
Theorem accepted_phone_normalizes_to_254 phone :
  validate_mpesa_phone phone = ok -> clean phone = phone ->
  match_254 (normalize_phone phone) = true.
Proof.
  unfold validate_mpesa_phone. intros H Hclean. rewrite Hclean in H.
  destruct (String.eqb phone "") eqn:E; [discriminate|].
  destruct (match_254 phone || match_0 phone) eqn:M; [clear H|discriminate].
  destruct phone as [|a [|d rest]]; [discriminate|discriminate|].
  unfold normalize_phone.
  destruct (Ascii.eqb_spec a "0"%char) as [->|H0].
  - assert (Z0 : match_254 (String "0" (String d rest)) = false)
      by (destruct rest as [|x [|y z]]; reflexivity).
    rewrite Z0 in M. simpl in M |- *. exact M.
  - destruct (Ascii.eqb_spec a "+"%char) as [->|H1].
    + destruct rest as [|x [|y z]]; simpl in M; discriminate M.
    + unfold match_0 in M. apply Ascii.eqb_neq in H0. rewrite H0 in M.
      rewrite orb_false_r in M. exact M.
Qed.

Lemma accepted_phone_normalizes_to_254_witness :
  validate_mpesa_phone "0712345678" = ok /\ clean "0712345678" = "0712345678" /\
  match_254 (normalize_phone "0712345678") = true.
Proof.
  split; [reflexivity|]. split; [reflexivity|].
  apply accepted_phone_normalizes_to_254; reflexivity.
Defined.

(** [validate_reference_number] accepts exactly the non-empty references
    that, for the method "mpesa" in any letter case, are 8 to 15
    alphanumeric characters long, and otherwise at most 100 characters long. *)
Theorem validate_reference_number_accepts reference method :
  validate_reference_number reference method = ok <->
  reference <> "" /\
  (if String.eqb (lower method) "mpesa"
   then (8 <= String.length reference <= 15)%nat /\ isalnum reference = true
   else (String.length reference <= 100)%nat).
Proof.
  unfold validate_reference_number.
  destruct (String.eqb_spec reference "") as [->|Hne].
  - split; [discriminate|]. intros [[] _]. reflexivity.
  - destruct (String.eqb (lower method) "mpesa"); simpl.
    + destruct (Nat.ltb_spec (String.length reference) 8);
      destruct (Nat.ltb_spec 15 (String.length reference)); simpl;
      try (split; [discriminate|]; intros [_ [Hl _]]; lia).
      destruct (isalnum reference); simpl.
      * destruct (Nat.ltb_spec 100 (String.length reference)); [lia|].
        split; [intros _; split; [exact Hne|split; [lia|reflexivity]]|reflexivity].
      * split; [discriminate|]. intros [_ [_ Hc]]. discriminate.
    + destruct (Nat.ltb_spec 100 (String.length reference)).
      * split; [discriminate|]. intros [_ Hl]. lia.
      * split; [intros _; split; [exact Hne|lia]|reflexivity].
Qed.

Lemma method_lower m : validate_payment_method (lower m) = validate_payment_method m.
Proof. unfold validate_payment_method. now rewrite lower_empty, lower_idem. Qed.

Lemma reference_lower r m :
  validate_reference_number r (lower m) = validate_reference_number r m.
Proof. unfold validate_reference_number. now rewrite lower_idem. Qed.

(** The payment validators read the method in any letter case:
    [validate_payment_method], [validate_reference_number] and
    [validate_payment_data] answer the same on [method] and [method.lower()]. *)
Theorem payment_validation_ignores_method_case amount method reference phone :
  validate_payment_method (lower method) = validate_payment_method method /\
  (forall r, validate_reference_number r (lower method) = validate_reference_number r method) /\
  validate_payment_data amount (lower method) reference phone =
  validate_payment_data amount method reference phone.
Proof.
  split; [apply method_lower|]. split; [intros r; apply reference_lower|].
  unfold validate_payment_data. rewrite method_lower, lower_idem.
  destruct reference as [r|]; [rewrite reference_lower|]; reflexivity.
Qed.

Lemma rejects_true v e : rejects v -> v = (true, e) -> v = ok.
Proof. intros [-> | [m ->]] H; [reflexivity | discriminate]. Qed.

(** What [validate_payment_data] accepts has a valid amount and method, a
    valid non-empty phone when the method is "mpesa" in any case, and a
    valid reference whenever one is given. *)
Theorem validate_payment_data_sound amount method reference phone :
  validate_payment_data amount method reference phone = ok ->
  validate_amount amount = ok /\ validate_payment_method method = ok /\
  (String.eqb (lower method) "mpesa" = true ->
   exists p, phone = Some p /\ p <> "" /\ validate_mpesa_phone p = ok) /\
  (forall r, reference = Some r -> r <> "" -> validate_reference_number r method = ok).
Proof.
  unfold validate_payment_data. intros H.
  pose proof (amount_shape amount) as SA. pose proof (method_shape method) as SM.
  destruct (validate_amount amount) as [va ea] eqn:EA.
  destruct va; [|discriminate]. simpl in H.
  destruct (validate_payment_method method) as [vm em] eqn:EM.
  destruct vm; [|discriminate]. simpl in H.
  split; [exact (rejects_true _ _ SA eq_refl)|].
  split; [exact (rejects_true _ _ SM eq_refl)|].
  match type of H with
  | context [let '(_, _) := ?pc in _] => destruct pc as [vp ep] eqn:EP
  end.
  destruct vp; [|discriminate]. simpl in H.
  split.
  - intros Hm. rewrite Hm in EP.
    destruct phone as [p|]; [|discriminate].
    unfold truthy in EP. destruct (String.eqb_spec p "") as [->|Hp]; [discriminate|].
    simpl in EP. exists p. split; [reflexivity|]. split; [exact Hp|].
    exact (rejects_true _ _ (phone_shape p) EP).
  - intros r Hr0 Hr. subst reference. unfold truthy in H.
    destruct (String.eqb r "") eqn:Er; [apply String.eqb_eq in Er; contradiction|]. simpl in H.
    destruct (validate_reference_number r method) as [vr er] eqn:ER.
    destruct vr; [|discriminate].
    rewrite <- ER. exact (rejects_true _ _ (reference_shape r method) ER).
Qed.

Lemma validate_payment_data_sound_witness :
  validate_payment_data (mkDecimal 1500 0) "MPESA" (Some "QGK7XZYR4M") (Some "0712 345 678") = ok /\
  validate_mpesa_phone "0712 345 678" = ok.
Proof.
  split; [vm_compute; reflexivity|].
  destruct (validate_payment_data_sound (mkDecimal 1500 0) "MPESA" (Some "QGK7XZYR4M")
              (Some "0712 345 678") ltac:(vm_compute; reflexivity)) as (_ & _ & Hp & _).
  destruct (Hp ltac:(vm_compute; reflexivity)) as (p & Hs & _ & Hv).
  injection Hs as <-. exact Hv.
Defined.

(** With a valid amount, an "mpesa" payment (in any letter case) without a
    phone, or with an empty one, is refused with "Phone number is required
    for M-Pesa payments", whatever its reference. *)
Theorem mpesa_without_phone_rejected amount method reference phone :
  validate_amount amount = ok -> String.eqb (lower method) "mpesa" = true ->
  truthy phone = false ->
  validate_payment_data amount method reference phone =
  fail "Phone number is required for M-Pesa payments".
Proof.
  intros HA Hm Hp. unfold validate_payment_data. rewrite HA. simpl.
  assert (HM : validate_payment_method method = ok).
  { unfold validate_payment_method.
    destruct (String.eqb_spec method "") as [->|_]; [discriminate Hm|].
    apply String.eqb_eq in Hm. rewrite Hm. reflexivity. }
  rewrite HM, Hm. simpl.
  destruct phone as [p|]; [rewrite Hp|]; reflexivity.
Qed.

Lemma mpesa_without_phone_rejected_witness :
  validate_payment_data (mkDecimal 1500 0) "M-Pesa" None None =
  fail "Invalid payment method. Must be one of: mpesa, cash, bank_transfer, card" /\
  validate_payment_data (mkDecimal 1500 0) "MPesa" (Some "QGK7XZYR4M") (Some "") =
  fail "Phone number is required for M-Pesa payments".
Proof.
  split; [vm_compute; reflexivity|].
  apply mpesa_without_phone_rejected; vm_compute; reflexivity.
Defined.
End PaymentValidatorProofs.

(** * Further properties: the M-Pesa password *)

Module MpesaProofs.
Import MpesaService ExtraProps.
Lemma b64_index_char_check :
  forallb (fun i => match b64_index (b64_char i) with Some j => j =? i | None => false end)
    (map Z.of_nat (seq 0 64)) = true.
Proof. vm_compute. reflexivity. Qed.

Lemma b64_index_char i : 0 <= i < 64 -> b64_index (b64_char i) = Some i.
Proof.
  intros H. pose proof b64_index_char_check as C.
  rewrite forallb_forall in C.
  assert (Hin : In i (map Z.of_nat (seq 0 64))).
  { apply in_map_iff. exists (Z.to_nat i). split; [lia|]. apply in_seq. lia. }
  specialize (C i Hin).
  destruct (b64_index (b64_char i)) as [j|]; [|discriminate C].
  rewrite Z.eqb_eq in C. now subst.
Qed.

Lemma b64_index_pad : b64_index "=" = None.
Proof. reflexivity. Qed.

Lemma lor_add a b : Z.land a b = 0 -> Z.lor a b = a + b.
Proof. intros H. rewrite <- Z.lxor_lor by exact H. symmetry. now apply Z.add_nocarry_lxor. Qed.

Lemma land_shiftl_low a b k : 0 <= k -> 0 <= b < 2 ^ k -> Z.land (Z.shiftl a k) b = 0.
Proof.
  intros Hk Hb. apply Z.bits_inj'. intros i Hi. rewrite Z.land_spec, Z.bits_0.
  destruct (Z.lt_ge_cases i k).
  - rewrite Z.shiftl_spec_low by lia. reflexivity.
  - rewrite <- (Z.mod_small b (2 ^ k)) by lia.
    rewrite Z.mod_pow2_bits_high by lia. apply andb_false_r.
Qed.

Lemma lor_shiftl a b k : 0 <= k -> 0 <= b < 2 ^ k -> Z.lor (Z.shiftl a k) b = a * 2 ^ k + b.
Proof.
  intros. rewrite lor_add by (apply land_shiftl_low; lia). now rewrite Z.shiftl_mul_pow2.
Qed.

Lemma land_ones_63 a : Z.land a 63 = a mod 64.
Proof. change 63 with (Z.ones 6). rewrite Z.land_ones by lia. reflexivity. Qed.
Lemma land_ones_255 a : Z.land a 255 = a mod 256.
Proof. change 255 with (Z.ones 8). rewrite Z.land_ones by lia. reflexivity. Qed.

Lemma lor_mul a b k : 0 <= k -> 0 <= b < 2 ^ k -> Z.lor (a * 2 ^ k) b = a * 2 ^ k + b.
Proof.
  intros. apply lor_add. rewrite <- Z.shiftl_mul_pow2 by lia. apply land_shiftl_low; lia.
Qed.

Lemma group_value b0 b1 b2 : 0 <= b1 < 256 -> 0 <= b2 < 256 ->
  Z.lor (Z.lor (Z.shiftl b0 16) (Z.shiftl b1 8)) b2 = b0 * 65536 + b1 * 256 + b2.
Proof.
  intros H1 H2.
  rewrite !Z.shiftl_mul_pow2 by lia.
  rewrite lor_mul by (change (2^16) with 65536; change (2^8) with 256; lia).
  replace (b0 * 2 ^ 16 + b1 * 2 ^ 8) with ((b0 * 256 + b1) * 2 ^ 8)
    by (change (2^16) with 65536; change (2^8) with 256; ring).
  rewrite lor_mul by (change (2^8) with 256; lia).
  change (2 ^ 8) with 256. ring.
Qed.

Lemma join4_value i0 i1 i2 i3 : 0 <= i1 < 64 -> 0 <= i2 < 64 -> 0 <= i3 < 64 ->
  join4 i0 i1 i2 i3 = i0 * 262144 + i1 * 4096 + i2 * 64 + i3.
Proof.
  intros H1 H2 H3. unfold join4.
  rewrite !Z.shiftl_mul_pow2 by lia.
  rewrite (lor_mul i0 (i1 * 2 ^ 12) 18) by (simpl; lia).
  replace (i0 * 2 ^ 18 + i1 * 2 ^ 12) with ((i0 * 64 + i1) * 2 ^ 12) by ring.
  rewrite (lor_mul _ (i2 * 2 ^ 6) 12) by (simpl; lia).
  replace ((i0 * 64 + i1) * 2 ^ 12 + i2 * 2 ^ 6) with ((i0 * 4096 + i1 * 64 + i2) * 2 ^ 6)
    by ring.
  rewrite lor_mul by (simpl; lia).
  ring.
Qed.

Ltac to_arith :=
  rewrite ?Z.shiftr_div_pow2, ?land_ones_63, ?land_ones_255 by lia;
  change (2 ^ 18) with 262144 in *; change (2 ^ 16) with 65536 in *;
  change (2 ^ 12) with 4096 in *; change (2 ^ 8) with 256 in *;
  change (2 ^ 6) with 64 in *.

Lemma roundtrip3 b0 b1 b2 : is_byte b0 = true -> is_byte b1 = true -> is_byte b2 = true ->
  let n := Z.lor (Z.lor (Z.shiftl b0 16) (Z.shiftl b1 8)) b2 in
  0 <= Z.shiftr n 18 < 64 /\ 0 <= Z.land (Z.shiftr n 12) 63 < 64 /\
  0 <= Z.land (Z.shiftr n 6) 63 < 64 /\ 0 <= Z.land n 63 < 64 /\
  let m := join4 (Z.shiftr n 18) (Z.land (Z.shiftr n 12) 63)
             (Z.land (Z.shiftr n 6) 63) (Z.land n 63) in
  Z.shiftr m 16 = b0 /\ Z.land (Z.shiftr m 8) 255 = b1 /\ Z.land m 255 = b2.
Proof.
  unfold is_byte. intros H0 H1 H2. apply andb_true_iff in H0, H1, H2.
  destruct H0 as [H0 H0'], H1 as [H1 H1'], H2 as [H2 H2'].
  apply Z.leb_le in H0, H1, H2. apply Z.ltb_lt in H0', H1', H2'.
  cbv zeta. rewrite group_value by lia. to_arith.
  repeat split; try (Z.div_mod_to_equations; lia).
  all: rewrite join4_value by (Z.div_mod_to_equations; lia); Z.div_mod_to_equations; lia.
Qed.

Lemma byte_bounds b : is_byte b = true -> 0 <= b < 256.
Proof. unfold is_byte. intros H. apply andb_true_iff in H as [H H']. lia. Qed.

Lemma roundtrip2 b0 b1 : is_byte b0 = true -> is_byte b1 = true ->
  let n := Z.lor (Z.shiftl b0 16) (Z.shiftl b1 8) in
  0 <= Z.shiftr n 18 < 64 /\ 0 <= Z.land (Z.shiftr n 12) 63 < 64 /\
  0 <= Z.land (Z.shiftr n 6) 63 < 64 /\
  let m := join4 (Z.shiftr n 18) (Z.land (Z.shiftr n 12) 63)
             (Z.land (Z.shiftr n 6) 63) 0 in
  Z.shiftr m 16 = b0 /\ Z.land (Z.shiftr m 8) 255 = b1.
Proof.
  intros H0 H1. apply byte_bounds in H0, H1. cbv zeta.
  rewrite !(Z.shiftl_mul_pow2 _ 16), !(Z.shiftl_mul_pow2 _ 8) by lia.
  rewrite lor_mul by (change (2^16) with 65536; change (2^8) with 256; lia).
  to_arith.
  repeat split; try (Z.div_mod_to_equations; lia).
  all: rewrite join4_value by (Z.div_mod_to_equations; lia); Z.div_mod_to_equations; lia.
Qed.

Lemma roundtrip1 b0 : is_byte b0 = true ->
  let n := Z.shiftl b0 16 in
  0 <= Z.shiftr n 18 < 64 /\ 0 <= Z.land (Z.shiftr n 12) 63 < 64 /\
  Z.shiftr (join4 (Z.shiftr n 18) (Z.land (Z.shiftr n 12) 63) 0 0) 16 = b0.
Proof.
  intros H0. apply byte_bounds in H0. cbv zeta.
  rewrite Z.shiftl_mul_pow2 by lia. to_arith.
  repeat split; try (Z.div_mod_to_equations; lia).
  rewrite join4_value by (Z.div_mod_to_equations; lia). to_arith.
  Z.div_mod_to_equations; lia.
Qed.

Lemma b64_roundtrip bs : forallb is_byte bs = true -> b64decode (b64encode bs) = Some bs.
Proof.
  enough (H : forall k bs, (List.length bs <= k)%nat -> forallb is_byte bs = true ->
                b64decode (b64encode bs) = Some bs) by (apply (H (List.length bs)); lia).
  induction k as [|k IH]; intros l Hl Hb.
  - destruct l; [reflexivity | simpl in Hl; lia].
  - destruct l as [|b0 [|b1 [|b2 rest]]]; [reflexivity| | |].
    + simpl in Hb. rewrite andb_true_r in Hb.
      destruct (roundtrip1 b0 Hb) as (Ha & Hb' & Hc).
      cbn [b64encode b64decode].
      rewrite !b64_index_char by assumption. rewrite b64_index_pad.
      rewrite Hc. reflexivity.
    + simpl in Hb. rewrite andb_true_r in Hb. apply andb_true_iff in Hb as [B0 B1].
      destruct (roundtrip2 b0 b1 B0 B1) as (Ha & Hb' & Hc & Hd & He).
      cbn [b64encode b64decode].
      rewrite !b64_index_char by assumption. rewrite b64_index_pad.
      rewrite Hd, He. reflexivity.
    + simpl in Hb. apply andb_true_iff in Hb as [B0 Hb].
      apply andb_true_iff in Hb as [B1 Hb]. apply andb_true_iff in Hb as [B2 Hb].
      destruct (roundtrip3 b0 b1 b2 B0 B1 B2) as (Ha & Hb' & Hc & Hd & He & Hf & Hg).
      cbn [b64encode b64decode].
      rewrite !b64_index_char by assumption.
      rewrite (IH rest) by (simpl in Hl; lia || assumption).
      now rewrite He, Hf, Hg.
Qed.

Lemma utf8_char_bytes c : forallb is_byte (utf8_char c) = true.
Proof.
  destruct c as [[] [] [] [] [] [] [] []]; reflexivity.
Qed.

Lemma encode_bytes s : forallb is_byte (encode s) = true.
Proof.
  induction s as [|c s IH]; [reflexivity|].
  simpl. rewrite forallb_app, utf8_char_bytes, IH. reflexivity.
Qed.

(** [get_password] is a base64 text that decodes back to the UTF-8 bytes
    of [shortcode ++ passkey ++ timestamp]. *)
Theorem get_password_decodes shortcode passkey timestamp :
  b64decode (get_password shortcode passkey timestamp) =
  Some (encode (shortcode ++ passkey ++ timestamp)).
Proof. unfold get_password. apply b64_roundtrip, encode_bytes. Qed.

Lemma b64encode_length bs :
  String.length (b64encode bs) = (4 * ((List.length bs + 2) / 3))%nat.
Proof.
  enough (H : forall k bs, (List.length bs <= k)%nat ->
                String.length (b64encode bs) = (4 * ((List.length bs + 2) / 3))%nat)
    by (apply (H (List.length bs)); lia).
  induction k as [|k IH]; intros l Hl.
  - destruct l; [reflexivity | simpl in Hl; lia].
  - destruct l as [|b0 [|b1 [|b2 rest]]]; try reflexivity.
    cbn [b64encode String.length List.length].
    rewrite IH by (simpl in Hl; lia).
    replace (S (S (S (List.length rest))) + 2)%nat with ((List.length rest + 2) + 1 * 3)%nat by lia.
    rewrite Nat.div_add by lia. lia.
Qed.

Lemma encode_length_ascii s : ascii_only s = true -> List.length (encode s) = String.length s.
Proof.
  induction s as [|c s IH]; [reflexivity|].
  simpl. intros H. apply andb_true_iff in H as [Hc Hs].
  unfold utf8_char. apply Nat.ltb_lt in Hc.
  replace (Z.of_nat (code c) <? 128) with true by (symmetry; apply Z.ltb_lt; lia).
  simpl. now rewrite IH.
Qed.

Lemma all_chars_app f s t : all_chars f (s ++ t) = all_chars f s && all_chars f t.
Proof. induction s as [|c s IH]; [reflexivity|]. simpl. rewrite IH. apply andb_assoc. Qed.

Lemma string_length_app s t : String.length (s ++ t) = (String.length s + String.length t)%nat.
Proof. induction s as [|c s IH]; [reflexivity|]. simpl. now rewrite IH. Qed.

(** For ASCII inputs [get_password] has 4 * ceil(n / 3) characters, where
    n is the total length of the three inputs. *)
Theorem get_password_length shortcode passkey timestamp :
  ascii_only (shortcode ++ passkey ++ timestamp) = true ->
  String.length (get_password shortcode passkey timestamp) =
  (4 * ((String.length shortcode + String.length passkey + String.length timestamp + 2) / 3))%nat.
Proof.
  intros H. unfold get_password. rewrite b64encode_length, encode_length_ascii by exact H.
  rewrite !string_length_app. f_equal. f_equal. lia.
Qed.

Lemma get_password_length_witness :
  ascii_only ("174379" ++ "your_passkey" ++ "20240101120000") = true /\
  String.length (get_password "174379" "your_passkey" "20240101120000") =
  (4 * ((String.length "174379" + String.length "your_passkey" +
         String.length "20240101120000" + 2) / 3))%nat.
Proof. split; [reflexivity|]. apply get_password_length. reflexivity. Defined.
End MpesaProofs.

(** * Further properties: what the callback and the status update leave alone *)

Module FrameProofs.
Import PaymentsApi LessonsApi.

Lemma find_map_frame {A} (f : A -> bool) (g : A -> A) (l : list A) :
  (forall y, f (g y) = f y) -> (forall y, f y = true -> g y = y) ->
  find f (map g l) = find f l.
Proof.
  intros Hf Hg. induction l as [|a l IH]; [reflexivity|].
  simpl. rewrite Hf. destruct (f a) eqn:E; [now rewrite Hg|exact IH].
Qed.

Lemma find_replace_other {A} (key : A -> Z) (x : A) (k : Z) (l : list A) :
  k <> key x ->
  find (fun y => key y =? k) (map (fun y => if key y =? key x then x else y) l) =
  find (fun y => key y =? k) l.
Proof.
  intros Hk. apply find_map_frame.
  - intros y. destruct (Z.eqb_spec (key y) (key x)) as [E|E]; [|reflexivity].
    now rewrite E.
  - intros y Hy. apply Z.eqb_eq in Hy.
    destruct (Z.eqb_spec (key y) (key x)); [congruence|reflexivity].
Qed.


Lemma callback_store_cases st cb :
  snd (mpesa_callback st cb) = st \/
  exists p, find_by_ref st (CheckoutRequestID cb) = Some p /\
    ((snd (mpesa_callback st cb) = put_payment st (with_status p FAILED)) \/
     (snd (mpesa_callback st cb) =
        put_payment st (with_external_ref (with_status p COMPLETED)
                          (callback_receipt (CallbackMetadata cb)))) \/
     exists e, get_enrollment st (enrollment_id p) = Some e /\
       snd (mpesa_callback st cb) =
         put_payment (put_enrollment st (add_paid e (callback_amount (CallbackMetadata cb))))
           (with_external_ref (with_status p COMPLETED)
              (callback_receipt (CallbackMetadata cb)))).
Proof.
  destruct (find_by_ref st (CheckoutRequestID cb)) as [p|] eqn:F.
  2: { left. rewrite (CallbackProofs.callback_unmatched st cb F). reflexivity. }
  right. exists p. split; [reflexivity|].
  rewrite (CallbackProofs.callback_matched st cb p F). cbn [snd].
  destruct (ResultCode cb) as [[| |]|]; try (left; reflexivity).
  right. destruct (get_enrollment st (enrollment_id p)) as [e|] eqn:G.
  - right. exists e. split; reflexivity.
  - left. reflexivity.
Qed.

Lemma get_payment_put_other s q pid :
  pid <> id q -> get_payment (put_payment s q) pid = get_payment s pid.
Proof. intros H. apply (find_replace_other id). exact H. Qed.

Lemma get_enrollment_put_other s e eid :
  eid <> enr_id e -> get_enrollment (put_enrollment s e) eid = get_enrollment s eid.
Proof. intros H. apply (find_replace_other enr_id). exact H. Qed.

(** [mpesa_callback] keeps the number of payment and enrollment rows, and
    leaves unchanged every payment other than the one it matched and every
    enrollment other than that payment's. *)
Theorem mpesa_callback_frame st cb :
  let st' := snd (mpesa_callback st cb) in
  List.length (payments st') = List.length (payments st) /\
  List.length (enrollments st') = List.length (enrollments st) /\
  (forall pid, (forall p, find_by_ref st (CheckoutRequestID cb) = Some p -> pid <> id p) ->
     get_payment st' pid = get_payment st pid) /\
  (forall eid, (forall p, find_by_ref st (CheckoutRequestID cb) = Some p ->
                  eid <> enrollment_id p) ->
     get_enrollment st' eid = get_enrollment st eid).
Proof.
  cbv zeta.
  destruct (callback_store_cases st cb) as [-> | [p [F Hc]]].
  { repeat split; auto. }
  destruct Hc as [-> | [-> | [e [G ->]]]].
  - split; [apply length_map|]. split; [reflexivity|]. split.
    + intros pid Hpid. apply get_payment_put_other. exact (Hpid p F).
    + intros eid _. reflexivity.
  - split; [apply length_map|]. split; [reflexivity|]. split.
    + intros pid Hpid. apply get_payment_put_other. exact (Hpid p F).
    + intros eid _. reflexivity.
  - split; [apply length_map|]. split; [apply length_map|]. split.
    + intros pid Hpid. rewrite get_payment_put_other by exact (Hpid p F). reflexivity.
    + intros eid Heid. rewrite CallbackProofs.get_enrollment_put_payment.
      apply get_enrollment_put_other. simpl.
      apply find_some in G as [_ Gid]. apply Z.eqb_eq in Gid. rewrite Gid. exact (Heid p F).
Qed.



(** [update_lesson_status] keeps the number of lesson rows and leaves every
    lesson with another id unchanged. *)
Theorem update_lesson_status_frame lessons lesson_id status :
  let lessons' := snd (update_lesson_status lessons lesson_id status) in
  List.length lessons' = List.length lessons /\
  forall i, i <> lesson_id -> get_lesson lessons' i = get_lesson lessons i.
Proof.
  cbv zeta. unfold update_lesson_status.
  destruct (get_lesson lessons lesson_id) as [l|] eqn:G; [|split; auto].
  cbn [snd]. unfold put_lesson. rewrite length_map. split; [reflexivity|].
  intros i Hi. unfold get_lesson.
  apply find_some in G as [_ Gid]. apply Z.eqb_eq in Gid.
  apply (find_replace_other LessonModel.id). simpl. rewrite Gid. exact Hi.
Qed.


Lemma mpesa_callback_frame_witness :
  let st := mkStore
    [mkPayment 5000 (Some "ws_CO_1") PENDING 0 10 "MPESA" 0 0 None 1;
     mkPayment 2000 (Some "ws_CO_9") PENDING 0 11 "MPESA" 0 0 None 2]
    [mkEnrollment 10 3 4 0; mkEnrollment 11 3 5 0] in
  let cb := mkStkCallback None (Some "ws_CO_1") (Some 0) None
    [ItemAmount 5000; ItemMpesaReceiptNumber "QGK7XZYR4M"] in
  get_payment (snd (mpesa_callback st cb)) 2 = get_payment st 2 /\
  get_enrollment (snd (mpesa_callback st cb)) 11 = get_enrollment st 11.
Proof.
  intros st cb.
  destruct (mpesa_callback_frame st cb) as (_ & _ & Hp & He).
  split; [apply Hp | apply He]; intros p F; vm_compute in F; injection F as <-; discriminate.
Defined.

Lemma update_lesson_status_frame_witness :
  let lessons :=
    [LessonModel.mkLesson 1 (at_ 1 9 0) SCHEDULED PRACTICAL None 60 10 20 None;
     LessonModel.mkLesson 2 (at_ 1 11 0) SCHEDULED THEORY None 60 10 20 None] in
  get_lesson (snd (update_lesson_status lessons 1 LessonModel.COMPLETED)) 2 = get_lesson lessons 2.
Proof.
  intros lessons. destruct (update_lesson_status_frame lessons 1 LessonModel.COMPLETED) as (_ & H).
  apply H. discriminate.
Defined.

End FrameProofs.
